(** * StudyFlow remote-resource services: [ActivityService] and [teacherService]

    A shallow embedding of the two service modules
    [src/services/api/activityService.js] and
    [src/services/api/teacherService.js].

    Every service method is an [async] function that builds a request
    descriptor, awaits one call of the hosted-data client, inspects the
    response envelope and either returns a value or throws.  On the way it
    may write to the console and raise toast notifications.  The embedding
    keeps all of this: a method is a computation in the monad [Eff], which
    records the ordered trace of observable events together with the way the
    method completes (a returned value or a thrown one). *)

From stdpp Require Import base strings gmap list pretty.
From Stdlib Require Import ZArith Lia Ascii.

Local Open Scope string_scope.
Local Open Scope list_scope.
Local Open Scope Z_scope.

(* ===================================================================== *)
(** ** JavaScript values *)
(* ===================================================================== *)

(** Scalars and arrays of scalars: the values of record fields and of the
    identifier arguments.  Numbers are the integral ones ([JNum]) and [NaN];
    identifiers and the fields of these tables need no others. *)
#[warnings="-register-all"]
Inductive JsVal : Type :=
| JUndefined
| JNull
| JBool (b : bool)
| JNum (z : Z)
| JNaN
| JStr (s : string)
| JArr (items : list JsVal).

(** A record (a row of a table, or a payload) is a JavaScript object used as
    a map from field names to values. *)
Abbreviation Obj := (gmap string JsVal).

(** What a service method can return, and what the [data] field of a
    response envelope can hold. *)
Inductive Value : Type :=
| VUndefined
| VNull
| VBool (b : bool)
| VRow (row : Obj)
| VRows (rows : list Obj).

(** A field that holds an array or record when present, and that may be
    absent ([undefined]) or [null]. *)
Inductive Nullable (A : Type) : Type :=
| Undefined
| Null
| Val (a : A).
Arguments Undefined {A}.
Arguments Null {A}.
Arguments Val {A} a.

(** [ToBoolean]. *)
Definition truthy (v : JsVal) : bool :=
  match v with
  | JUndefined | JNull | JNaN => false
  | JBool b => b
  | JNum z => negb (z =? 0)%Z
  | JStr s => negb (String.eqb s "")
  | JArr _ => true
  end.

Definition truthy_value (v : Value) : bool :=
  match v with
  | VUndefined | VNull => false
  | VBool b => b
  | VRow _ | VRows _ => true
  end.

(** An optional string field ([message?]): absent, or a string, which is
    truthy when it is not empty. *)
Definition truthy_string (m : option string) : bool :=
  match m with
  | Some s => negb (String.eqb s "")
  | None => false
  end.

(** [a || b] on values. *)
Definition js_or (a b : JsVal) : JsVal := if truthy a then a else b.

(** Property access [o.k]: the field's value, [undefined] when absent. *)
Definition prop (o : Obj) (k : string) : JsVal := default JUndefined (o !! k).

(** [ToString].  An array joins the strings of its elements with commas,
    where [null] and [undefined] elements give the empty string.  An integer
    prints in plain decimal notation (as JavaScript does below 10^21). *)
Fixpoint ToString (v : JsVal) : string :=
  match v with
  | JUndefined => "undefined"
  | JNull => "null"
  | JBool true => "true"
  | JBool false => "false"
  | JNum z => pretty z
  | JNaN => "NaN"
  | JStr s => s
  | JArr items =>
      let element (x : JsVal) : string :=
        match x with
        | JUndefined | JNull => ""
        | _ => ToString x
        end in
      (fix join (l : list JsVal) : string :=
         match l with
         | [] => ""
         | [x] => element x
         | x :: rest => element x +:+ "," +:+ join rest
         end) items
  end.

(* --------------------------------------------------------------------- *)
(** *** [parseInt] with no radix argument *)
(* --------------------------------------------------------------------- *)

Definition is_white_space (c : ascii) : bool :=
  let n := nat_of_ascii c in
  bool_decide (n = 9 ∨ n = 10 ∨ n = 11 ∨ n = 12 ∨ n = 13 ∨ n = 32)%nat.

Fixpoint trim_start (s : string) : string :=
  match s with
  | String c rest => if is_white_space c then trim_start rest else s
  | EmptyString => s
  end.

(** The value of [c] as a digit of the given radix, if it is one. *)
Definition digit_value (radix : Z) (c : ascii) : option Z :=
  let n := Z.of_nat (nat_of_ascii c) in
  let d :=
    if (48 <=? n) && (n <=? 57) then Some (n - 48)
    else if (97 <=? n) && (n <=? 122) then Some (n - 87)
    else if (65 <=? n) && (n <=? 90) then Some (n - 55)
    else None in
  match d with
  | Some v => if v <? radix then Some v else None
  | None => None
  end.

(** The number written by the longest prefix of digits; [None] when that
    prefix is empty. *)
Fixpoint parse_digits (radix : Z) (acc : option Z) (s : string) : option Z :=
  match s with
  | String c rest =>
      match digit_value radix c with
      | Some d => parse_digits radix (Some (radix * default 0 acc + d)) rest
      | None => acc
      end
  | EmptyString => acc
  end.

Definition parseInt_string (input : string) : JsVal :=
  let s := trim_start input in
  let '(sign, s) :=
    match s with
    | String "-" rest => (-1, rest)
    | String "+" rest => (1, rest)
    | _ => (1, s)
    end in
  let '(radix, s) :=
    match s with
    | String "0" (String "x" rest) => (16, rest)
    | String "0" (String "X" rest) => (16, rest)
    | _ => (10, s)
    end in
  match parse_digits radix None s with
  | Some n => JNum (sign * n)
  | None => JNaN
  end.

(** [parseInt(v)] converts its argument to a string first. *)
Definition parseInt (v : JsVal) : JsVal := parseInt_string (ToString v).

(* ===================================================================== *)
(** ** The client's requests and responses *)
(* ===================================================================== *)

Inductive SortType : Type := ASC | DESC.

(** The [params] of the two read operations.  A field projection
    [{field: {Name: n}}] is its name [n]; [orderBy] and [pagingInfo] are
    absent from the [params] of [getRecordById]. *)
Module Params.
Record OrderBy : Type := { fieldName : string; sorttype : SortType }.
Record PagingInfo : Type := { limit : Z; offset : Z }.
Record t : Type := {
  fields : list string;
  orderBy : option (list OrderBy);
  pagingInfo : option PagingInfo
}.
End Params.

(** The five methods of [ApperClient] the services call, with their
    arguments. *)
Inductive Request : Type :=
| fetchRecords (table : string) (params : Params.t)
| getRecordById (table : string) (id : JsVal) (params : Params.t)
| createRecord (table : string) (records : list Obj)
| updateRecord (table : string) (records : list Obj)
| deleteRecord (table : string) (RecordIds : list JsVal).

(** One field-level validation reason of a rejected record. *)
Module FieldError.
Record t : Type := { fieldLabel : string; message : string }.
End FieldError.

(** One entry of [response.results]. *)
Module RecordResult.
Record t : Type := {
  success : bool;
  data : Value;
  message : option string;
  errors : option (list FieldError.t)
}.
End RecordResult.

(** The response envelope.  The fields a given operation does not fill are
    absent: [data] is [VUndefined], [results] is [Undefined], [message] is
    [None]. *)
Module Envelope.
Record t : Type := {
  success : bool;
  message : option string;
  data : Value;
  results : Nullable (list RecordResult.t)
}.
End Envelope.

(** What can be thrown: an [Error] built with a message, a [TypeError] raised
    by the engine, or any other value a rejected promise carries. *)
Inductive Thrown : Type :=
| ErrorObj (message : string)
| TypeErrorObj
| ThrownVal (v : JsVal).

(** The settled promise of a client call.  It resolves with the envelope
    (or, for a misbehaving client, with nothing) or rejects. *)
Inductive Reply : Type :=
| Resolve (response : Nullable Envelope.t)
| Reject (error : Thrown).

(** The client: it answers each request. *)
Definition ApperClient : Type := Request -> Reply.

(* ===================================================================== *)
(** ** Effects *)
(* ===================================================================== *)

(** The observable events of a method, in order.  [ConsoleError] keeps the
    first argument of [console.error] ([None] when it is [undefined]). *)
Inductive Event : Type :=
| Delay (ms : Z)
| Call (req : Request)
| ConsoleError (label : option string)
| ToastError (msg : option string)
| ToastSuccess (msg : string).

Inductive Completion (A : Type) : Type :=
| Return (a : A)
| Throw (e : Thrown).
Arguments Return {A} a.
Arguments Throw {A} e.

Definition Eff (A : Type) : Type := list Event * Completion A.

Definition trace {A} (m : Eff A) : list Event := m.1.
Definition completion {A} (m : Eff A) : Completion A := m.2.

#[global] Instance Eff_ret : MRet Eff := fun A a => ([], Return a).

#[global] Instance Eff_bind : MBind Eff := fun A B f m =>
  match m.2 with
  | Return a => (m.1 ++ (f a).1, (f a).2)
  | Throw e => (m.1, Throw e)
  end.

Definition emit (e : Event) : Eff unit := ([e], Return tt).
Definition throw {A} (e : Thrown) : Eff A := ([], Throw e).

(** [try { body } catch (error) { handler }]. *)
Definition try_catch {A} (body : Eff A) (handler : Thrown -> Eff A) : Eff A :=
  match body.2 with
  | Return a => body
  | Throw e => (body.1 ++ (handler e).1, (handler e).2)
  end.

(** [array.forEach(f)]: [f] on each element in order; a throw ends it. *)
Fixpoint forEach {A} (f : A -> Eff unit) (l : list A) : Eff unit :=
  match l with
  | [] => mret tt
  | x :: rest => f x ;; forEach f rest
  end.

(** [await delay(ms)]. *)
Definition delay (ms : Z) : Eff unit := emit (Delay ms).

Definition console_error (label : string) : Eff unit :=
  emit (ConsoleError (Some label)).
Definition toast_error (msg : option string) : Eff unit := emit (ToastError msg).
Definition toast_success (msg : string) : Eff unit := emit (ToastSuccess msg).

(** [const { ApperClient } = window.ApperSDK; new ApperClient({...})]: a
    [TypeError] when the SDK has not been loaded. *)
Definition new_ApperClient (sdk : option ApperClient) : Eff ApperClient :=
  match sdk with
  | Some client => mret client
  | None => throw TypeErrorObj
  end.

(** [await apperClient.method(...)]. *)
Definition await_call (client : ApperClient) (req : Request)
  : Eff (Nullable Envelope.t) :=
  emit (Call req) ;;
  match client req with
  | Resolve response => mret response
  | Reject error => throw error
  end.

(** [response.p] for a property [p]: a [TypeError] when [response] is
    [undefined] or [null]. *)
Definition deref {A} (x : Nullable A) : Eff A :=
  match x with
  | Val a => mret a
  | Undefined | Null => throw TypeErrorObj
  end.

(** [new Error(m)]: the message is the empty string when [m] is
    [undefined]. *)
Definition new_Error (m : option string) : Thrown := ErrorObj (default "" m).

(** A thrown value on which property access itself throws. *)
Definition nullish_thrown (e : Thrown) : bool :=
  match e with
  | ThrownVal JUndefined | ThrownVal JNull => true
  | _ => false
  end.

(** What the user sees. *)
Inductive Notification : Type :=
| NError (msg : option string)
| NSuccess (msg : string).

Fixpoint notifications (tr : list Event) : list Notification :=
  match tr with
  | [] => []
  | ToastError m :: rest => NError m :: notifications rest
  | ToastSuccess m :: rest => NSuccess m :: notifications rest
  | _ :: rest => notifications rest
  end.

(** The requests that reached the client. *)
Fixpoint calls (tr : list Event) : list Request :=
  match tr with
  | [] => []
  | Call req :: rest => req :: calls rest
  | _ :: rest => calls rest
  end.

(** [array[0]] followed by a property access: a [TypeError] on an empty
    array. *)
Definition first_of {A} (l : list A) : Eff A :=
  match l with
  | x :: _ => mret x
  | [] => throw TypeErrorObj
  end.

(** [results.filter(r => r.success)] and [results.filter(r => !r.success)]. *)
Definition succeeded (results : list RecordResult.t) : list RecordResult.t :=
  List.filter (fun r => RecordResult.success r) results.
Definition rejected (results : list RecordResult.t) : list RecordResult.t :=
  List.filter (fun r => negb (RecordResult.success r)) results.

(* ===================================================================== *)
(** ** [activityService.js] *)
(* ===================================================================== *)

Module ActivityService.

(** [this.tableName], set by the constructor. *)
Definition tableName : string := "activity_c".

(** The second argument of [console.error] in the [catch] blocks,
    [error?.response?.data?.message || error.message]: it throws a
    [TypeError] when the caught value is [undefined] or [null]. *)
Definition error_message (error : Thrown) : Eff unit :=
  if nullish_thrown error then throw TypeErrorObj else mret tt.

Definition getAll (sdk : option ApperClient) : Eff Value :=
  try_catch
    (delay 300 ;;
     apperClient ← new_ApperClient sdk;
     let params := {|
       Params.fields := ["Name"; "Tags"; "subject_c"; "description_c";
                         "status_c"; "priority_c"; "due_date_c";
                         "CreatedOn"; "ModifiedOn"];
       Params.orderBy := Some [{| Params.fieldName := "ModifiedOn";
                                  Params.sorttype := DESC |}];
       Params.pagingInfo := Some {| Params.limit := 100; Params.offset := 0 |}
     |} in
     response ← await_call apperClient (fetchRecords tableName params);
     response ← deref response;
     if negb (Envelope.success response) then
       console_error "Failed to fetch activities:" ;;
       toast_error (Envelope.message response) ;;
       mret (VRows [])
     else
       mret (if truthy_value (Envelope.data response)
             then Envelope.data response
             else VRows []))
    (fun error =>
       error_message error ;;
       console_error "Error fetching activities:" ;;
       toast_error (Some "Failed to load activities") ;;
       mret (VRows [])).

Definition getById (sdk : option ApperClient) (id : JsVal) : Eff Value :=
  try_catch
    (delay 200 ;;
     apperClient ← new_ApperClient sdk;
     let params := {|
       Params.fields := ["Name"; "Tags"; "subject_c"; "description_c";
                         "status_c"; "priority_c"; "due_date_c"];
       Params.orderBy := None;
       Params.pagingInfo := None
     |} in
     response ← await_call apperClient (getRecordById tableName id params);
     response ← deref response;
     if negb (Envelope.success response) then
       console_error ("Failed to fetch activity " +:+ ToString id +:+ ":") ;;
       toast_error (Envelope.message response) ;;
       mret VNull
     else
       mret (Envelope.data response))
    (fun error =>
       error_message error ;;
       console_error ("Error fetching activity " +:+ ToString id +:+ ":") ;;
       toast_error (Some "Failed to load activity") ;;
       mret VNull).

(** The body of [failed.forEach(record => ...)] in [create] and
    [update]. *)
Definition report_record (record : RecordResult.t) : Eff unit :=
  match RecordResult.errors record with
  | Some errors =>
      forEach (fun error =>
                 toast_error (Some (FieldError.fieldLabel error +:+ ": "
                                    +:+ FieldError.message error)))
              errors
  | None => mret tt
  end ;;
  if truthy_string (RecordResult.message record)
  then toast_error (RecordResult.message record)
  else mret tt.

Definition create (sdk : option ApperClient) (activityData : Obj) : Eff Value :=
  try_catch
    (delay 400 ;;
     apperClient ← new_ApperClient sdk;
     let formattedData : Obj := list_to_map [
       ("Name", prop activityData "Name");
       ("subject_c", prop activityData "subject_c");
       ("description_c", prop activityData "description_c");
       ("status_c", prop activityData "status_c");
       ("priority_c", prop activityData "priority_c");
       ("due_date_c", prop activityData "due_date_c");
       ("Tags", js_or (prop activityData "Tags") (JStr ""))
     ] in
     response ← await_call apperClient (createRecord tableName [formattedData]);
     response ← deref response;
     if negb (Envelope.success response) then
       console_error "Failed to create activity:" ;;
       toast_error (Envelope.message response) ;;
       mret VNull
     else
       match Envelope.results response with
       | Val results =>
           let successful := succeeded results in
           let failed := rejected results in
           if (0 <? length failed)%nat then
             console_error "Failed to create activity:" ;;
             forEach report_record failed ;;
             mret VNull
           else if (0 <? length successful)%nat then
             toast_success "Activity created successfully" ;;
             first ← first_of successful;
             mret (RecordResult.data first)
           else mret VNull
       | Undefined | Null => mret VNull
       end)
    (fun error =>
       error_message error ;;
       console_error "Error creating activity:" ;;
       toast_error (Some "Failed to create activity") ;;
       mret VNull).

Definition update (sdk : option ApperClient) (id : JsVal) (activityData : Obj)
  : Eff Value :=
  try_catch
    (delay 400 ;;
     apperClient ← new_ApperClient sdk;
     let formattedData : Obj := list_to_map [
       ("Id", parseInt id);
       ("Name", prop activityData "Name");
       ("subject_c", prop activityData "subject_c");
       ("description_c", prop activityData "description_c");
       ("status_c", prop activityData "status_c");
       ("priority_c", prop activityData "priority_c");
       ("due_date_c", prop activityData "due_date_c");
       ("Tags", js_or (prop activityData "Tags") (JStr ""))
     ] in
     response ← await_call apperClient (updateRecord tableName [formattedData]);
     response ← deref response;
     if negb (Envelope.success response) then
       console_error "Failed to update activity:" ;;
       toast_error (Envelope.message response) ;;
       mret VNull
     else
       match Envelope.results response with
       | Val results =>
           let successful := succeeded results in
           let failed := rejected results in
           if (0 <? length failed)%nat then
             console_error "Failed to update activity:" ;;
             forEach report_record failed ;;
             mret VNull
           else if (0 <? length successful)%nat then
             toast_success "Activity updated successfully" ;;
             first ← first_of successful;
             mret (RecordResult.data first)
           else mret VNull
       | Undefined | Null => mret VNull
       end)
    (fun error =>
       error_message error ;;
       console_error "Error updating activity:" ;;
       toast_error (Some "Failed to update activity") ;;
       mret VNull).

Definition delete (sdk : option ApperClient) (id : JsVal) : Eff Value :=
  try_catch
    (delay 300 ;;
     apperClient ← new_ApperClient sdk;
     let RecordIds := [parseInt id] in
     response ← await_call apperClient (deleteRecord tableName RecordIds);
     response ← deref response;
     if negb (Envelope.success response) then
       console_error "Failed to delete activity:" ;;
       toast_error (Envelope.message response) ;;
       mret (VBool false)
     else
       match Envelope.results response with
       | Val results =>
           let successful := succeeded results in
           let failed := rejected results in
           if (0 <? length failed)%nat then
             console_error "Failed to delete activity:" ;;
             forEach (fun record =>
                        if truthy_string (RecordResult.message record)
                        then toast_error (RecordResult.message record)
                        else mret tt)
                     failed ;;
             mret (VBool false)
           else if (0 <? length successful)%nat then
             toast_success "Activity deleted successfully" ;;
             mret (VBool true)
           else mret (VBool false)
       | Undefined | Null => mret (VBool false)
       end)
    (fun error =>
       error_message error ;;
       console_error "Error deleting activity:" ;;
       toast_error (Some "Failed to delete activity") ;;
       mret (VBool false)).

End ActivityService.

(* ===================================================================== *)
(** ** [teacherService.js] *)
(* ===================================================================== *)

Module teacherService.

(** [successful[0]?.data]. *)
Definition first_data (successful : list RecordResult.t) : Value :=
  match successful with
  | first :: _ => RecordResult.data first
  | [] => VUndefined
  end.

(** [response?.data?.length] as a condition. *)
Definition has_length (response : Nullable Envelope.t) : bool :=
  match response with
  | Val response =>
      match Envelope.data response with
      | VRows rows => (0 <? length rows)%nat
      | VRow row => truthy (prop row "length")
      | VUndefined | VNull | VBool _ => false
      end
  | Undefined | Null => false
  end.

(** [response?.data]. *)
Definition data_of (response : Nullable Envelope.t) : Value :=
  match response with
  | Val response => Envelope.data response
  | Undefined | Null => VUndefined
  end.

Definition getAll (sdk : option ApperClient) : Eff Value :=
  try_catch
    (apperClient ← new_ApperClient sdk;
     let params := {|
       Params.fields := ["Id"; "name_c"; "email_c"; "department_c"];
       Params.orderBy := Some [{| Params.fieldName := "name_c";
                                  Params.sorttype := ASC |}];
       Params.pagingInfo := Some {| Params.limit := 100; Params.offset := 0 |}
     |} in
     response ← await_call apperClient (fetchRecords "teacher_c" params);
     if negb (has_length response) then mret (VRows [])
     else
       response ← deref response;
       mret (Envelope.data response))
    (fun error =>
       console_error "Error fetching teachers:" ;;
       throw error).

Definition getById (sdk : option ApperClient) (teacherId : JsVal) : Eff Value :=
  try_catch
    (apperClient ← new_ApperClient sdk;
     let params := {|
       Params.fields := ["Id"; "name_c"; "email_c"; "department_c"];
       Params.orderBy := None;
       Params.pagingInfo := None
     |} in
     response ← await_call apperClient (getRecordById "teacher_c" teacherId params);
     if negb (truthy_value (data_of response)) then mret VNull
     else
       response ← deref response;
       mret (Envelope.data response))
    (fun error =>
       console_error ("Error fetching teacher " +:+ ToString teacherId +:+ ":") ;;
       throw error).

(** The body of [failed.forEach(record => ...)] in [create], [update] and
    [delete]. *)
Definition throw_message (record : RecordResult.t) : Eff unit :=
  if truthy_string (RecordResult.message record)
  then throw (new_Error (RecordResult.message record))
  else mret tt.

Definition create (sdk : option ApperClient) (teacherData : Obj) : Eff Value :=
  try_catch
    (apperClient ← new_ApperClient sdk;
     let filteredData : Obj := list_to_map [
       ("name_c", prop teacherData "name_c");
       ("email_c", prop teacherData "email_c");
       ("department_c", prop teacherData "department_c")
     ] in
     response ← await_call apperClient (createRecord "teacher_c" [filteredData]);
     response ← deref response;
     if negb (Envelope.success response) then
       emit (ConsoleError (Envelope.message response)) ;;
       throw (new_Error (Envelope.message response))
     else
       match Envelope.results response with
       | Val results =>
           let successful := succeeded results in
           let failed := rejected results in
           (if (0 <? length failed)%nat then
              console_error ("Failed to create " +:+ pretty (length failed)
                             +:+ " teacher records:") ;;
              forEach throw_message failed
            else mret tt) ;;
           mret (first_data successful)
       | Undefined | Null => mret VUndefined
       end)
    (fun error =>
       console_error "Error creating teacher:" ;;
       throw error).

Definition update (sdk : option ApperClient) (teacherId : JsVal) (teacherData : Obj)
  : Eff Value :=
  try_catch
    (apperClient ← new_ApperClient sdk;
     let filteredData : Obj := list_to_map [
       ("Id", teacherId);
       ("name_c", prop teacherData "name_c");
       ("email_c", prop teacherData "email_c");
       ("department_c", prop teacherData "department_c")
     ] in
     response ← await_call apperClient (updateRecord "teacher_c" [filteredData]);
     response ← deref response;
     if negb (Envelope.success response) then
       emit (ConsoleError (Envelope.message response)) ;;
       throw (new_Error (Envelope.message response))
     else
       match Envelope.results response with
       | Val results =>
           let successful := succeeded results in
           let failed := rejected results in
           (if (0 <? length failed)%nat then
              console_error ("Failed to update " +:+ pretty (length failed)
                             +:+ " teacher records:") ;;
              forEach throw_message failed
            else mret tt) ;;
           mret (first_data successful)
       | Undefined | Null => mret VUndefined
       end)
    (fun error =>
       console_error "Error updating teacher:" ;;
       throw error).

Definition delete (sdk : option ApperClient) (teacherId : JsVal) : Eff Value :=
  try_catch
    (apperClient ← new_ApperClient sdk;
     let RecordIds := [teacherId] in
     response ← await_call apperClient (deleteRecord "teacher_c" RecordIds);
     response ← deref response;
     if negb (Envelope.success response) then
       emit (ConsoleError (Envelope.message response)) ;;
       throw (new_Error (Envelope.message response))
     else
       match Envelope.results response with
       | Val results =>
           let successful := succeeded results in
           let failed := rejected results in
           (if (0 <? length failed)%nat then
              console_error ("Failed to delete " +:+ pretty (length failed)
                             +:+ " teacher records:") ;;
              forEach throw_message failed
            else mret tt) ;;
           mret (VBool (0 <? length successful)%nat)
       | Undefined | Null => mret VUndefined
       end)
    (fun error =>
       console_error "Error deleting teacher:" ;;
       throw error).

End teacherService.

(* ===================================================================== *)
(** ** Sample runs *)
(* ===================================================================== *)

Definition envelope (success : bool) (message : option string) (data : Value)
  (results : Nullable (list RecordResult.t)) : Envelope.t :=
  {| Envelope.success := success; Envelope.message := message;
     Envelope.data := data; Envelope.results := results |}.

(** A client that answers every request with the same envelope. *)
Definition answering (response : Envelope.t) : ApperClient :=
  fun _ => Resolve (Val response).

(** A client whose every call rejects. *)
Definition rejecting (error : Thrown) : ApperClient := fun _ => Reject error.

Definition accepted (data : Value) : RecordResult.t :=
  {| RecordResult.success := true; RecordResult.data := data;
     RecordResult.message := None; RecordResult.errors := None |}.

Definition refused (message : option string) (errors : option (list FieldError.t))
  : RecordResult.t :=
  {| RecordResult.success := false; RecordResult.data := VUndefined;
     RecordResult.message := message; RecordResult.errors := errors |}.

(* ===================================================================== *)
(** ** Vocabulary of the statements *)
(* ===================================================================== *)

(** The toast events that raise the given notifications. *)
Definition toasts (ns : list Notification) : list Event :=
  map (fun n => match n with
                | NError m => ToastError m
                | NSuccess m => ToastSuccess m
                end) ns.

(** The reasons [ActivityService] shows for one rejected record of a write:
    one per field-level error, then the record's own message when it has
    one. *)
Definition reasons (record : RecordResult.t) : list Notification :=
  map (fun error => NError (Some (FieldError.fieldLabel error +:+ ": "
                                  +:+ FieldError.message error)))
      (default [] (RecordResult.errors record))
  ++ (if truthy_string (RecordResult.message record)
      then [NError (RecordResult.message record)] else []).

(** The reason [ActivityService.delete] shows for one rejected record. *)
Definition record_message (record : RecordResult.t) : list Notification :=
  if truthy_string (RecordResult.message record)
  then [NError (RecordResult.message record)] else [].

(** [teacherService]: the loop over the rejected records throws the message
    of the first one that has a message, and completes when none has. *)
Definition first_message (failed : list RecordResult.t) : option RecordResult.t :=
  List.find (fun record => truthy_string (RecordResult.message record)) failed.

(** [answered client run reply]: every request that [run] sent to [client]
    was settled with [reply]. *)
Definition answered {A} (client : ApperClient) (run : Eff A) (reply : Reply) : Prop :=
  Forall (fun req => client req = reply) (calls (trace run)).

(** The claim about a failed listing, for a given [getAll]: the call returns
    the empty list after exactly one error notification that carries the
    transport's message. *)
Definition list_failure_contract (getAll : option ApperClient -> Eff Value) : Prop :=
  forall (client : ApperClient) (response : Envelope.t),
    answered client (getAll (Some client)) (Resolve (Val response)) ->
    Envelope.success response = false ->
    completion (getAll (Some client)) = Return (VRows [])
    /\ notifications (trace (getAll (Some client))) = [NError (Envelope.message response)].

(** The identifiers the specification admits: positive integers. *)
Definition positive_integral (id : JsVal) : bool :=
  match id with
  | JNum z => (0 <? z)%Z
  | _ => false
  end.

(** The claim about identifiers, for a given [getById]: a value that is not
    a positive integer is turned away before anything is sent. *)
Definition rejects_invalid_identifier
    (getById : option ApperClient -> JsVal -> Eff Value) : Prop :=
  forall (client : ApperClient) (id : JsVal),
    positive_integral id = false ->
    calls (trace (getById (Some client) id)) = [].

(** The fields each service copies from the payload into the record it
    sends (the "Updateable fields" of the source's comments). *)
Definition ActivityService_writeable : list string :=
  ["Name"; "subject_c"; "description_c"; "status_c"; "priority_c";
   "due_date_c"; "Tags"].

Definition teacherService_writeable : list string :=
  ["name_c"; "email_c"; "department_c"].

(** [record] has exactly the fields named in [names]. *)
Definition has_exactly (names : list string) (record : Obj) : Prop :=
  forall field : string, record !! field = None <-> field ∉ names.


(** The claim about the outcome of a write whose envelope succeeded, for a
    given run: rejected records are reported, each with its reasons, and the
    run returns the failure value; with none rejected, the first succeeded
    record's data is returned after one success notification; with no
    results, the failure value is returned. *)
Definition write_contract (run : Eff Value) (response : Envelope.t)
    (done : string) : Prop :=
  (forall results,
      Envelope.results response = Val results ->
      rejected results <> [] ->
      completion run = Return VNull
      /\ notifications (trace run) = flat_map reasons (rejected results))
  /\ (forall results first rest,
        Envelope.results response = Val results ->
        rejected results = [] ->
        succeeded results = first :: rest ->
        completion run = Return (RecordResult.data first)
        /\ notifications (trace run) = [NSuccess done])
  /\ (Envelope.results response = Val []
      \/ Envelope.results response = Undefined
      \/ Envelope.results response = Null ->
      completion run = Return VNull /\ notifications (trace run) = []).

(** What [teacherService.create] and [update] do with an envelope that
    succeeded: no notification at all; when a rejected record carries a
    message, an [Error] with the first such message is thrown; when no
    record was rejected, the first succeeded record's data is returned
    ([undefined] when there is none). *)
Definition teacher_write_behaviour (run : Eff Value) (response : Envelope.t) : Prop :=
  notifications (trace run) = []
  /\ (forall results record,
        Envelope.results response = Val results ->
        first_message (rejected results) = Some record ->
        completion run = Throw (new_Error (RecordResult.message record)))
  /\ (forall results,
        Envelope.results response = Val results ->
        rejected results = [] ->
        completion run = Return (teacherService.first_data (succeeded results))).

Definition due_date_required : FieldError.t :=
  {| FieldError.fieldLabel := "due_date_c"; FieldError.message := "required" |}.

Definition email_required : FieldError.t :=
  {| FieldError.fieldLabel := "Email"; FieldError.message := "Email is required" |}.

(** A client that never rejects a call with [undefined] or [null]. *)
Definition no_nullish_rejection (client : ApperClient) : Prop :=
  forall (req : Request) (error : Thrown),
    client req = Reject error -> nullish_thrown error = false.

(** A rejected record that carries a message. *)
Definition has_message (record : RecordResult.t) : bool :=
  truthy_string (RecordResult.message record).

(** The value [ActivityService] sends for a writeable field: the payload's,
    with the empty string in place of a falsy [Tags]. *)
Definition ActivityService_sent (payload : Obj) (field : string) : JsVal :=
  if String.eqb field "Tags" then js_or (prop payload field) (JStr "")
  else prop payload field.



(* --------------------------------------------------------------------- *)
(** *** Strings: [trim], [split], [includes] *)
(* --------------------------------------------------------------------- *)

(** A string is taken as the bytes of its UTF-8 encoding, and the string
    methods work on them. *)
Definition bytes_of (s : string) : list ascii := String.list_ascii_of_string s.
Definition of_bytes (l : list ascii) : string := String.string_of_list_ascii l.

(** The characters [trim] removes, each as its UTF-8 bytes: tab, line feed,
    vertical tab, form feed, carriage return, space, U+00A0, U+1680,
    U+2000 to U+200A, U+2028, U+2029, U+202F, U+205F, U+3000 and U+FEFF. *)
Definition white_space : list (list ascii) :=
  map (map ascii_of_nat)
    [[9]; [10]; [11]; [12]; [13]; [32]; [194; 160]; [225; 154; 128];
     [226; 128; 128]; [226; 128; 129]; [226; 128; 130]; [226; 128; 131];
     [226; 128; 132]; [226; 128; 133]; [226; 128; 134]; [226; 128; 135];
     [226; 128; 136]; [226; 128; 137]; [226; 128; 138];
     [226; 128; 168]; [226; 128; 169]; [226; 128; 175]; [226; 129; 159];
     [227; 128; 128]; [239; 187; 191]]%nat.

(** [s] without its prefix [w], when [w] is a prefix of [s]. *)
Fixpoint drop_prefix (w s : list ascii) : option (list ascii) :=
  match w, s with
  | [], _ => Some s
  | a :: w', b :: s' => if Ascii.eqb a b then drop_prefix w' s' else None
  | _ :: _, [] => None
  end.

(** [s] without one leading element of [ws], when it starts with one. *)
Fixpoint strip_any (ws : list (list ascii)) (s : list ascii) : option (list ascii) :=
  match ws with
  | [] => None
  | w :: rest =>
      match drop_prefix w s with
      | Some r => Some r
      | None => strip_any rest s
      end
  end.

(** [s] without its leading elements of [ws]: at most [fuel] of them. *)
Fixpoint strip_all (ws : list (list ascii)) (fuel : nat) (s : list ascii)
  : list ascii :=
  match fuel with
  | O => s
  | S fuel' =>
      match strip_any ws s with
      | Some r => strip_all ws fuel' r
      | None => s
      end
  end.

Definition trimStart_bytes (s : list ascii) : list ascii :=
  strip_all white_space (length s) s.

Definition trimEnd_bytes (s : list ascii) : list ascii :=
  reverse (strip_all (map reverse white_space) (length s) (reverse s)).

(** [s.trim()]. *)
Definition trim (s : string) : string :=
  of_bytes (trimEnd_bytes (trimStart_bytes (bytes_of s))).

(** [s.split(sep)] for a separator of one character: the pieces between the
    separators, one piece (the whole string) when there is none. *)
Fixpoint split_bytes (sep : ascii) (s : list ascii) : list (list ascii) :=
  match s with
  | [] => [[]]
  | c :: rest =>
      if Ascii.eqb c sep then [] :: split_bytes sep rest
      else match split_bytes sep rest with
           | piece :: pieces => (c :: piece) :: pieces
           | [] => [[c]]
           end
  end.

Definition split (sep : ascii) (s : string) : list string :=
  map of_bytes (split_bytes sep (bytes_of s)).

(** [s.includes(q)]. *)
Fixpoint includes_bytes (s q : list ascii) : bool :=
  match drop_prefix q s with
  | Some _ => true
  | None =>
      match s with
      | [] => false
      | _ :: rest => includes_bytes rest q
      end
  end.

Definition includes (s q : string) : bool :=
  includes_bytes (bytes_of s) (bytes_of q).

(** [a === b].  Two arrays are equal only when they are one and the same
    object, which values alone cannot tell; they are taken to be distinct,
    and this is exact whenever one side is not an array. *)
Definition strict_eq (a b : JsVal) : bool :=
  match a, b with
  | JUndefined, JUndefined => true
  | JNull, JNull => true
  | JBool x, JBool y => Bool.eqb x y
  | JNum x, JNum y => (x =? y)%Z
  | JStr x, JStr y => String.eqb x y
  | _, _ => false
  end.

Definition is_array (v : JsVal) : bool :=
  match v with
  | JArr _ => true
  | _ => false
  end.

(* --------------------------------------------------------------------- *)
(** *** Components: what a handler does *)
(* --------------------------------------------------------------------- *)

(** A handler of a component runs against the values it was rendered with
    (they are its arguments here) and acts by calling the services, raising
    toasts, calling back its parent, and calling the setters of the
    component's state.  All of these are events of its trace. *)

(** The text of an error as a component stores it: a string, or the message
    of a [TypeError] raised by the engine, whose wording is the engine's. *)
Inductive ErrorText : Type :=
| Text (s : string)
| EngineText.

(** An array state of a page, or whatever other value was stored in its
    place. *)
Inductive Listing : Type :=
| Items (items : list Value)
| NotArray (v : Value).

Definition listing_of (v : Value) : Listing :=
  match v with
  | VRows rows => Items (map VRow rows)
  | _ => NotArray v
  end.

(** What the Teachers page passes to [setTeachers]: the new value, or one
    of its three updater functions. *)
Inductive TeachersUpdate : Type :=
| Replace (data : Value)
| Append (newTeacher : Value)
| MapReplace (editingTeacher updatedTeacher : Value)
| Remove (teacherId : JsVal).

Inductive UiEvent : Type :=
| Ev (e : Event)
| PreventDefault
| Confirm (message : string)
| OnSave
| SetLoading (loading : bool)
| SetError (error : option ErrorText)
| SetTeachers (update : TeachersUpdate)
| SetFilteredTeachers (filtered : Listing)
| SetShowModal (showModal : bool)
| SetEditingTeacher (teacher : Value)
| SetFormData (formData : Obj)
| SetActivities (activities : Value)
| SetSelectedActivity (activity : Value)
| SetSaving (saving : bool)
| SetErrors (errors : gmap string ErrorText).

Definition Ui (A : Type) : Type := list UiEvent * Completion A.

#[global] Instance Ui_ret : MRet Ui := fun A a => ([], Return a).

#[global] Instance Ui_bind : MBind Ui := fun A B f m =>
  match m.2 with
  | Return a => (m.1 ++ (f a).1, (f a).2)
  | Throw e => (m.1, Throw e)
  end.

Definition ui (e : UiEvent) : Ui unit := ([e], Return tt).

(** A service call, or any other computation of the services' kind, made
    from a component. *)
Definition lift {A} (m : Eff A) : Ui A := (map Ev (trace m), completion m).

(** [try { body } catch (err) { handler }] *)
Definition ui_catch {A} (body : Ui A) (handler : Thrown -> Ui A) : Ui A :=
  match body.2 with
  | Return a => body
  | Throw e => (body.1 ++ (handler e).1, (handler e).2)
  end.

(** [try { body } finally { final }], for a body whose value is not used:
    [final] runs either way, and the body's exception goes on unless
    [final] throws one itself. *)
Definition ui_finally (body : Ui unit) (final : Ui unit) : Ui unit :=
  (body.1 ++ final.1,
   match final.2 with
   | Return _ => body.2
   | Throw e => Throw e
   end).

(** A call of an [async] function that is not awaited: it acts, and its
    failure is not the caller's. *)
Definition ui_spawn (m : Ui unit) : Ui unit := (m.1, Return tt).

(** [v.k] on a value that may not be a record: a [TypeError] on [undefined]
    and [null], [undefined] on a boolean and (for the field names used
    here) on an array. *)
Definition field (v : Value) (k : string) : Eff JsVal :=
  match v with
  | VRow row => mret (prop row k)
  | VUndefined | VNull => throw TypeErrorObj
  | VBool _ | VRows _ => mret JUndefined
  end.

(** [array.filter(f)] and [array.map(f)] for callbacks that may throw. *)
Fixpoint filterM {A} (f : A -> Eff bool) (l : list A) : Eff (list A) :=
  match l with
  | [] => mret []
  | x :: rest =>
      keep ← f x;
      kept ← filterM f rest;
      mret (if keep : bool then x :: kept else kept)
  end.

Fixpoint mapM {A B} (f : A -> Eff B) (l : list A) : Eff (list B) :=
  match l with
  | [] => mret []
  | x :: rest =>
      y ← f x;
      ys ← mapM f rest;
      mret (y :: ys)
  end.

(** [error.message || fallback] in a [catch] block. *)
Definition message_or (error : Thrown) (fallback : string) : Eff ErrorText :=
  match error with
  | ErrorObj message =>
      mret (Text (if String.eqb message "" then fallback else message))
  | TypeErrorObj => mret EngineText
  | ThrownVal JUndefined | ThrownVal JNull => throw TypeErrorObj
  | ThrownVal _ => mret (Text fallback)
  end.

(** The events of a trace by kind: the toasts, the requests, and the state
    setters called. *)
Fixpoint service_events (tr : list UiEvent) : list Event :=
  match tr with
  | [] => []
  | Ev e :: rest => e :: service_events rest
  | _ :: rest => service_events rest
  end.

Definition ui_notifications (tr : list UiEvent) : list Notification :=
  notifications (service_events tr).

Definition ui_calls (tr : list UiEvent) : list Request :=
  calls (service_events tr).

Definition is_setter (e : UiEvent) : bool :=
  match e with
  | Ev _ | PreventDefault | Confirm _ | OnSave => false
  | _ => true
  end.

Definition setters (tr : list UiEvent) : list UiEvent := List.filter is_setter tr.

(* --------------------------------------------------------------------- *)
(** *** [Teachers.jsx] *)
(* --------------------------------------------------------------------- *)

Module Teachers.

(** The empty form. *)
Definition blank : Obj :=
  list_to_map [("name_c", JStr ""); ("email_c", JStr ""); ("department_c", JStr "")].

Definition loadTeachers (sdk : option ApperClient) : Ui unit :=
  ui_finally
    (ui_catch
       (ui (SetLoading true) ;;
        data ← lift (teacherService.getAll sdk);
        ui (SetTeachers (Replace data)) ;;
        ui (SetError None))
       (fun err =>
          ui (SetError (Some (Text "Failed to load teachers"))) ;;
          ui (Ev (ToastError (Some "Failed to load teachers")))))
    (ui (SetLoading false)).

(** [name && name.toLowerCase().includes(query)], as a condition. *)
Definition matches (toLowerCase : string -> string) (query : string) (v : JsVal)
  : Eff bool :=
  if truthy v then
    match v with
    | JStr s => mret (includes (toLowerCase s) query)
    | _ => throw TypeErrorObj
    end
  else mret false.

(** [array.filter(f)] on the state: a [TypeError] when it is not an
    array. *)
Definition filter_listing (f : Value -> Eff bool) (l : Listing) : Eff Listing :=
  match l with
  | Items items => items ← filterM f items; mret (Items items)
  | NotArray _ => throw TypeErrorObj
  end.

Definition filterTeachers (toLowerCase : string -> string) (teachers : Listing)
    (searchQuery filterDepartment : string) : Ui unit :=
  filtered ← lift (
    filtered ←
      (if negb (String.eqb searchQuery "") then
         let query := toLowerCase searchQuery in
         filter_listing
           (fun teacher =>
              name_c ← field teacher "name_c";
              by_name ← matches toLowerCase query name_c;
              if by_name : bool then mret true
              else
                email_c ← field teacher "email_c";
                by_email ← matches toLowerCase query email_c;
                if by_email : bool then mret true
                else
                  department_c ← field teacher "department_c";
                  matches toLowerCase query department_c)
           teachers
       else mret teachers);
    if negb (String.eqb filterDepartment "all") then
      filter_listing
        (fun teacher =>
           department_c ← field teacher "department_c";
           mret (strict_eq department_c (JStr filterDepartment)))
        filtered
    else mret filtered);
  ui (SetFilteredTeachers filtered).

(** [openModal(teacher = null)]: an [undefined] argument takes the
    default. *)
Definition openModal (teacher : Value) : Ui unit :=
  let teacher := match teacher with VUndefined => VNull | _ => teacher end in
  ui (SetEditingTeacher teacher) ;;
  formData ←
    (if truthy_value teacher then
       name_c ← lift (field teacher "name_c");
       email_c ← lift (field teacher "email_c");
       department_c ← lift (field teacher "department_c");
       mret (list_to_map [("name_c", js_or name_c (JStr ""));
                          ("email_c", js_or email_c (JStr ""));
                          ("department_c", js_or department_c (JStr ""))] : Obj)
     else mret blank);
  ui (SetFormData formData) ;;
  ui (SetShowModal true).

Definition closeModal : Ui unit :=
  ui (SetShowModal false) ;;
  ui (SetEditingTeacher VNull) ;;
  ui (SetFormData blank).

Definition handleSubmit (sdk : option ApperClient) (formData : Obj)
    (editingTeacher : Value) : Ui unit :=
  ui PreventDefault ;;
  if negb (truthy (prop formData "name_c"))
     || negb (truthy (prop formData "email_c"))
     || negb (truthy (prop formData "department_c"))
  then ui (Ev (ToastError (Some "Please fill in all required fields")))
  else
    ui_catch
      ((if truthy_value editingTeacher then
          Id ← lift (field editingTeacher "Id");
          updatedTeacher ← lift (teacherService.update sdk Id formData);
          ui (SetTeachers (MapReplace editingTeacher updatedTeacher)) ;;
          ui (Ev (ToastSuccess "Teacher updated successfully"))
        else
          newTeacher ← lift (teacherService.create sdk formData);
          ui (SetTeachers (Append newTeacher)) ;;
          ui (Ev (ToastSuccess "Teacher added successfully"))) ;;
       closeModal)
      (fun err => ui (Ev (ToastError (Some "Failed to save teacher")))).

(** [confirmed] is what the user answers to [confirm]. *)
Definition handleDelete (sdk : option ApperClient) (confirmed : bool)
    (teacherId teacherName : JsVal) : Ui unit :=
  ui (Confirm ("Are you sure you want to delete " +:+ ToString teacherName +:+ "?")) ;;
  if negb confirmed then mret tt
  else
    ui_catch
      (lift (teacherService.delete sdk teacherId) ;;
       ui (SetTeachers (Remove teacherId)) ;;
       ui (Ev (ToastSuccess "Teacher deleted successfully")))
      (fun err => ui (Ev (ToastError (Some "Failed to delete teacher")))).

(** What [setTeachers] makes of the state [prev]: the new state, or the
    exception its updater throws. *)
Definition apply_update (update : TeachersUpdate) (prev : Listing)
  : Completion Listing :=
  completion
    match update with
    | Replace data => mret (listing_of data)
    | Append newTeacher =>
        match prev with
        | Items items => mret (Items (items ++ [newTeacher]))
        | NotArray _ => throw TypeErrorObj
        end
    | MapReplace editingTeacher updatedTeacher =>
        match prev with
        | Items items =>
            items ← mapM (fun t =>
                            Id ← field t "Id";
                            editingId ← field editingTeacher "Id";
                            mret (if strict_eq Id editingId
                                  then updatedTeacher else t))
                         items;
            mret (Items items)
        | NotArray _ => throw TypeErrorObj
        end
    | Remove teacherId =>
        filter_listing
          (fun t => Id ← field t "Id"; mret (negb (strict_eq Id teacherId)))
          prev
    end.

End Teachers.

(* --------------------------------------------------------------------- *)
(** *** The Activities page *)
(* --------------------------------------------------------------------- *)

Module Activities.

Definition loadActivities (sdk : option ApperClient) : Ui unit :=
  ui_finally
    (ui_catch
       (ui (SetLoading true) ;;
        ui (SetError None) ;;
        data ← lift (ActivityService.getAll sdk);
        ui (SetActivities (if truthy_value data then data else VRows [])))
       (fun err =>
          message ← lift (message_or err "Failed to load activities");
          ui (SetError (Some message))))
    (ui (SetLoading false)).

(** [field?.toLowerCase().includes(term)], as a condition. *)
Definition matches (toLowerCase : string -> string) (searchTerm : string)
    (v : JsVal) : Eff bool :=
  match v with
  | JUndefined | JNull => mret false
  | JStr s => mret (includes (toLowerCase s) (toLowerCase searchTerm))
  | _ => throw TypeErrorObj
  end.

Definition filteredActivities (toLowerCase : string -> string)
    (activities : list Obj) (searchTerm statusFilter priorityFilter : string)
  : Eff (list Obj) :=
  filterM
    (fun activity =>
       matchesSearch ←
         (if String.eqb searchTerm "" then mret true
          else
            by_name ← matches toLowerCase searchTerm (prop activity "Name");
            if by_name : bool then mret true
            else
              by_subject ← matches toLowerCase searchTerm (prop activity "subject_c");
              if by_subject : bool then mret true
              else matches toLowerCase searchTerm (prop activity "description_c"));
       let matchesStatus :=
         String.eqb statusFilter "all"
         || strict_eq (prop activity "status_c") (JStr statusFilter) in
       let matchesPriority :=
         String.eqb priorityFilter "all"
         || strict_eq (prop activity "priority_c") (JStr priorityFilter) in
       mret (matchesSearch && matchesStatus && matchesPriority))
    activities.

(** [confirmed] is what the user answers to [window.confirm]. *)
Definition handleDeleteActivity (sdk : option ApperClient) (confirmed : bool)
    (id : JsVal) : Ui unit :=
  ui (Confirm "Are you sure you want to delete this activity?") ;;
  if confirmed then
    success ← lift (ActivityService.delete sdk id);
    if truthy_value success then ui_spawn (loadActivities sdk) else mret tt
  else mret tt.

Definition handleModalSave (sdk : option ApperClient) : Ui unit :=
  ui (SetShowModal false) ;;
  ui (SetSelectedActivity VNull) ;;
  ui_spawn (loadActivities sdk).

Definition getStatusBadgeVariant (status : JsVal) : string :=
  if strict_eq status (JStr "Completed") then "success"
  else if strict_eq status (JStr "In Progress") then "primary"
  else if strict_eq status (JStr "On Hold") then "warning"
  else if strict_eq status (JStr "Cancelled") then "error"
  else "secondary".

Definition getPriorityBadgeVariant (priority : JsVal) : string :=
  if strict_eq priority (JStr "High") then "error"
  else if strict_eq priority (JStr "Normal") then "primary"
  else if strict_eq priority (JStr "Low") then "secondary"
  else "secondary".

Definition formatTags (tags : JsVal) : list JsVal :=
  if negb (truthy tags) then []
  else
    match tags with
    | JStr s =>
        map JStr
          (List.filter (fun tag => (0 <? String.length tag)%nat)
             (map trim (split "," s)))
    | JArr items => items
    | _ => []
    end.

End Activities.

(* --------------------------------------------------------------------- *)
(** *** [ActivityModal.jsx] *)
(* --------------------------------------------------------------------- *)

Module ActivityModal.

(** [v.trim()]: a [TypeError] on anything but a string. *)
Definition trim_of (v : JsVal) : Eff string :=
  match v with
  | JStr s => mret (trim s)
  | _ => throw TypeErrorObj
  end.

Definition validateForm (formData : Obj) : Ui bool :=
  let newErrors : gmap string ErrorText := ∅ in
  Name ← lift (trim_of (prop formData "Name"));
  let newErrors :=
    if String.eqb Name ""
    then <["Name" := Text "Activity name is required"]> newErrors
    else newErrors in
  subject_c ← lift (trim_of (prop formData "subject_c"));
  let newErrors :=
    if String.eqb subject_c ""
    then <["subject_c" := Text "Subject is required"]> newErrors
    else newErrors in
  let newErrors :=
    if negb (truthy (prop formData "status_c"))
    then <["status_c" := Text "Status is required"]> newErrors
    else newErrors in
  let newErrors :=
    if negb (truthy (prop formData "priority_c"))
    then <["priority_c" := Text "Priority is required"]> newErrors
    else newErrors in
  let newErrors :=
    if negb (truthy (prop formData "due_date_c"))
    then <["due_date_c" := Text "Due date is required"]> newErrors
    else newErrors in
  ui (SetErrors newErrors) ;;
  mret (size newErrors =? 0)%nat.

(** [activity] is the component's property: the activity being edited, or
    nothing. *)
Definition handleSubmit (sdk : option ApperClient) (formData : Obj)
    (activity : Value) : Ui unit :=
  ui PreventDefault ;;
  valid ← validateForm formData;
  if negb valid then mret tt
  else
    ui_finally
      (ui_catch
         (ui (SetSaving true) ;;
          Name ← lift (trim_of (prop formData "Name"));
          subject_c ← lift (trim_of (prop formData "subject_c"));
          description_c ← lift (trim_of (prop formData "description_c"));
          Tags ← lift (trim_of (prop formData "Tags"));
          let activityData : Obj := list_to_map [
            ("Name", JStr Name);
            ("subject_c", JStr subject_c);
            ("description_c", JStr description_c);
            ("status_c", prop formData "status_c");
            ("priority_c", prop formData "priority_c");
            ("due_date_c", prop formData "due_date_c");
            ("Tags", JStr Tags)
          ] in
          result ←
            (if truthy_value activity then
               Id ← lift (field activity "Id");
               lift (ActivityService.update sdk Id activityData)
             else lift (ActivityService.create sdk activityData));
          if truthy_value result then ui OnSave else mret tt)
         (fun error =>
            message ← lift (message_or error "Failed to save activity");
            ui (SetErrors {[ "submit" := message ]})))
      (ui (SetSaving false)).

End ActivityModal.

(** The calls back to the parent in a trace. *)
Definition callbacks (tr : list UiEvent) : list UiEvent :=
  List.filter (fun e => match e with OnSave => true | _ => false end) tr.

(** The activity form has a required field left blank. *)
Definition blank_field (formData : Obj) (name subject : string) : bool :=
  String.eqb (trim name) ""
  || String.eqb (trim subject) ""
  || negb (truthy (prop formData "status_c"))
  || negb (truthy (prop formData "priority_c"))
  || negb (truthy (prop formData "due_date_c")).

(** Bytes with no white space at either end. *)
Definition trimmed (s : list ascii) : Prop :=
  strip_any white_space s = None
  /\ strip_any (map reverse white_space) (reverse s) = None.

(** A tag as [formatTags] shows it: not empty, unchanged by [trim], and
    without a comma. *)
Definition clean_tag (tag : string) : Prop :=
  tag <> "" /\ trim tag = tag /\ ","%char ∉ bytes_of tag.

(* ===================================================================== *)
(** ** [parseInt] on sample identifiers *)
(* ===================================================================== *)

Example parseInt_num : parseInt (JNum 42) = JNum 42.
Proof. reflexivity. Qed.
Example parseInt_str : parseInt (JStr "  -17px") = JNum (-17).
Proof. reflexivity. Qed.
Example parseInt_hex : parseInt (JStr "0x1F") = JNum 31.
Proof. reflexivity. Qed.
Example parseInt_word : parseInt (JStr "abc") = JNaN.
Proof. reflexivity. Qed.
Example parseInt_undefined : parseInt JUndefined = JNaN.
Proof. reflexivity. Qed.
Example parseInt_array : parseInt (JArr [JNum 1; JNum 2; JNum 3]) = JNum 1.
Proof. reflexivity. Qed.

(* ===================================================================== *)
(** ** Traces *)
(* ===================================================================== *)

Lemma notifications_app (a b : list Event) :
  notifications (a ++ b) = notifications a ++ notifications b.
Proof.
  induction a as [|e a IH]; [reflexivity|].
  destruct e; cbn; rewrite IH; reflexivity.
Qed.

Lemma calls_app (a b : list Event) : calls (a ++ b) = calls a ++ calls b.
Proof.
  induction a as [|e a IH]; [reflexivity|].
  destruct e; cbn; rewrite IH; reflexivity.
Qed.

Lemma notifications_toasts (ns : list Notification) :
  notifications (toasts ns) = ns.
Proof.
  induction ns as [|n ns IH]; [reflexivity|].
  destruct n; cbn; f_equal; exact IH.
Qed.

Lemma calls_toasts (ns : list Notification) : calls (toasts ns) = [].
Proof.
  induction ns as [|n ns IH]; [reflexivity|].
  destruct n; cbn; exact IH.
Qed.

Lemma toasts_app (a b : list Notification) : toasts (a ++ b) = toasts a ++ toasts b.
Proof. apply map_app. Qed.

Lemma forEach_field_errors (errors : list FieldError.t) :
  forEach (fun error =>
             toast_error (Some (FieldError.fieldLabel error +:+ ": "
                                +:+ FieldError.message error))) errors
  = (toasts (map (fun error => NError (Some (FieldError.fieldLabel error +:+ ": "
                                             +:+ FieldError.message error)))
                 errors), Return tt).
Proof.
  induction errors as [|e errors IH]; [reflexivity|].
  cbn [forEach]. rewrite IH. reflexivity.
Qed.

Lemma report_record_run (record : RecordResult.t) :
  ActivityService.report_record record = (toasts (reasons record), Return tt).
Proof.
  unfold ActivityService.report_record, reasons.
  destruct (RecordResult.errors record) as [errors|]; cbn [default].
  - rewrite forEach_field_errors, toasts_app.
    destruct (truthy_string _); cbn; rewrite ?app_nil_r; reflexivity.
  - destruct (truthy_string _); reflexivity.
Qed.

Lemma forEach_report_record (failed : list RecordResult.t) :
  forEach ActivityService.report_record failed
  = (toasts (flat_map reasons failed), Return tt).
Proof.
  induction failed as [|r failed IH]; [reflexivity|].
  cbn [forEach flat_map]. rewrite IH, report_record_run, toasts_app. reflexivity.
Qed.

Lemma forEach_record_message (failed : list RecordResult.t) :
  forEach (fun record =>
             if truthy_string (RecordResult.message record)
             then toast_error (RecordResult.message record)
             else mret tt) failed
  = (toasts (flat_map record_message failed), Return tt).
Proof.
  induction failed as [|r failed IH]; [reflexivity|].
  cbn [forEach flat_map]. rewrite IH, toasts_app. unfold record_message at 2.
  destruct (truthy_string _); reflexivity.
Qed.

Lemma forEach_throw_message (failed : list RecordResult.t) :
  forEach teacherService.throw_message failed
  = ([], match first_message failed with
         | Some record => Throw (new_Error (RecordResult.message record))
         | None => Return tt
         end).
Proof.
  induction failed as [|r failed IH]; [reflexivity|].
  cbn [forEach first_message List.find]. fold (first_message failed).
  rewrite IH. unfold teacherService.throw_message.
  destruct (truthy_string _); [reflexivity|].
  destruct (first_message failed); reflexivity.
Qed.

(** [array.length > 0] holds exactly of a non-empty array. *)
Lemma length_pos {A} (l : list A) : l <> [] -> (0 <? length l)%nat = true.
Proof. destruct l; [contradiction | reflexivity]. Qed.

(** When no record was rejected, all of them succeeded. *)
Lemma succeeded_all (results : list RecordResult.t) :
  rejected results = [] -> succeeded results = results.
Proof.
  unfold rejected, succeeded.
  induction results as [|r results IH]; [reflexivity|].
  cbn. destruct (RecordResult.success r); cbn; [|discriminate].
  intros H. rewrite (IH H). reflexivity.
Qed.

(* ===================================================================== *)
(** ** The request each method sends *)
(* ===================================================================== *)

(** Evaluate a method as far as its inputs allow, splitting on what the
    client replied and on the tests the method makes. *)
Ltac crunch :=
  repeat first
    [ progress cbn -[list_to_map prop js_or parseInt ToString pretty
                     succeeded rejected first_message]
    | rewrite forEach_report_record
    | rewrite forEach_record_message
    | rewrite forEach_throw_message
    | rewrite calls_app
    | rewrite calls_toasts
    | rewrite notifications_app
    | rewrite notifications_toasts
    | match goal with
      | |- context [match ?c ?r with Resolve _ => _ | Reject _ => _ end] =>
          destruct (c r) as [[| |?]|?]
      | |- context [first_of ?l] => destruct l eqn:?
      | |- context [if ?b then _ else _] => destruct b eqn:?
      | |- context [match ?x with _ => _ end] => destruct x eqn:?
      end ].

Section Requests.
Variable client : ApperClient.

Lemma ActivityService_getAll_sends :
  calls (trace (ActivityService.getAll (Some client))) =
    [fetchRecords "activity_c" {|
       Params.fields := ["Name"; "Tags"; "subject_c"; "description_c";
                         "status_c"; "priority_c"; "due_date_c";
                         "CreatedOn"; "ModifiedOn"];
       Params.orderBy := Some [{| Params.fieldName := "ModifiedOn";
                                  Params.sorttype := DESC |}];
       Params.pagingInfo := Some {| Params.limit := 100; Params.offset := 0 |}
     |}].
Proof.
  unfold ActivityService.getAll, ActivityService.error_message, await_call.
  crunch; reflexivity.
Qed.

Lemma teacherService_getAll_sends :
  calls (trace (teacherService.getAll (Some client))) =
    [fetchRecords "teacher_c" {|
       Params.fields := ["Id"; "name_c"; "email_c"; "department_c"];
       Params.orderBy := Some [{| Params.fieldName := "name_c";
                                  Params.sorttype := ASC |}];
       Params.pagingInfo := Some {| Params.limit := 100; Params.offset := 0 |}
     |}].
Proof.
  unfold teacherService.getAll, await_call.
  crunch; reflexivity.
Qed.

Lemma ActivityService_getById_sends (id : JsVal) :
  calls (trace (ActivityService.getById (Some client) id)) =
    [getRecordById "activity_c" id {|
       Params.fields := ["Name"; "Tags"; "subject_c"; "description_c";
                         "status_c"; "priority_c"; "due_date_c"];
       Params.orderBy := None;
       Params.pagingInfo := None
     |}].
Proof.
  unfold ActivityService.getById, ActivityService.error_message, await_call.
  crunch; reflexivity.
Qed.

Lemma teacherService_getById_sends (teacherId : JsVal) :
  calls (trace (teacherService.getById (Some client) teacherId)) =
    [getRecordById "teacher_c" teacherId {|
       Params.fields := ["Id"; "name_c"; "email_c"; "department_c"];
       Params.orderBy := None;
       Params.pagingInfo := None
     |}].
Proof.
  unfold teacherService.getById, await_call.
  crunch; reflexivity.
Qed.

Lemma ActivityService_create_sends (activityData : Obj) :
  calls (trace (ActivityService.create (Some client) activityData)) =
    [createRecord "activity_c" [list_to_map [
       ("Name", prop activityData "Name");
       ("subject_c", prop activityData "subject_c");
       ("description_c", prop activityData "description_c");
       ("status_c", prop activityData "status_c");
       ("priority_c", prop activityData "priority_c");
       ("due_date_c", prop activityData "due_date_c");
       ("Tags", js_or (prop activityData "Tags") (JStr ""))]]].
Proof.
  unfold ActivityService.create, ActivityService.error_message, await_call.
  crunch; reflexivity.
Qed.

Lemma ActivityService_update_sends (id : JsVal) (activityData : Obj) :
  calls (trace (ActivityService.update (Some client) id activityData)) =
    [updateRecord "activity_c" [list_to_map [
       ("Id", parseInt id);
       ("Name", prop activityData "Name");
       ("subject_c", prop activityData "subject_c");
       ("description_c", prop activityData "description_c");
       ("status_c", prop activityData "status_c");
       ("priority_c", prop activityData "priority_c");
       ("due_date_c", prop activityData "due_date_c");
       ("Tags", js_or (prop activityData "Tags") (JStr ""))]]].
Proof.
  unfold ActivityService.update, ActivityService.error_message, await_call.
  crunch; reflexivity.
Qed.

Lemma ActivityService_delete_sends (id : JsVal) :
  calls (trace (ActivityService.delete (Some client) id)) =
    [deleteRecord "activity_c" [parseInt id]].
Proof.
  unfold ActivityService.delete, ActivityService.error_message, await_call.
  crunch; reflexivity.
Qed.

Lemma teacherService_create_sends (teacherData : Obj) :
  calls (trace (teacherService.create (Some client) teacherData)) =
    [createRecord "teacher_c" [list_to_map [
       ("name_c", prop teacherData "name_c");
       ("email_c", prop teacherData "email_c");
       ("department_c", prop teacherData "department_c")]]].
Proof.
  unfold teacherService.create, await_call.
  crunch; reflexivity.
Qed.

Lemma teacherService_update_sends (teacherId : JsVal) (teacherData : Obj) :
  calls (trace (teacherService.update (Some client) teacherId teacherData)) =
    [updateRecord "teacher_c" [list_to_map [
       ("Id", teacherId);
       ("name_c", prop teacherData "name_c");
       ("email_c", prop teacherData "email_c");
       ("department_c", prop teacherData "department_c")]]].
Proof.
  unfold teacherService.update, await_call.
  crunch; reflexivity.
Qed.

Lemma teacherService_delete_sends (teacherId : JsVal) :
  calls (trace (teacherService.delete (Some client) teacherId)) =
    [deleteRecord "teacher_c" [teacherId]].
Proof.
  unfold teacherService.delete, await_call.
  crunch; reflexivity.
Qed.

End Requests.

(* ===================================================================== *)
(** ** What the client replied *)
(* ===================================================================== *)

Lemma answered_inv {A} (client : ApperClient) (run : Eff A) (reply : Reply)
    (req : Request) :
  calls (trace run) = [req] -> answered client run reply -> client req = reply.
Proof.
  unfold answered. intros -> H. inversion H; assumption.
Qed.

Lemma answered_answering {A} (response : Envelope.t) (run : Eff A) :
  answered (answering response) run (Resolve (Val response)).
Proof. apply Forall_forall. reflexivity. Qed.

(** Evaluate a run as far as the known facts allow, leaving the loops and
    the length tests folded. *)
Ltac eval_run :=
  cbn -[list_to_map prop js_or parseInt ToString pretty succeeded rejected
        first_message forEach first_of Nat.ltb length].

(** Evaluate a method whose request is known to be settled with the reply
    stated by [H]. *)
Ltac run_with H :=
  unfold await_call;
  cbv delta [ActivityService.tableName];
  eval_run; rewrite H; eval_run.

(* ===================================================================== *)
(** ** Listing *)
(* ===================================================================== *)

Lemma ActivityService_getAll_failure : list_failure_contract ActivityService.getAll.
Proof.
  intros client response Hreply Hfailure.
  pose proof (answered_inv _ _ _ _ (ActivityService_getAll_sends client) Hreply) as H.
  unfold ActivityService.getAll. run_with H. rewrite Hfailure. split; reflexivity.
Qed.

Lemma teacherService_getAll_silent (sdk : option ApperClient) :
  notifications (trace (teacherService.getAll sdk)) = [].
Proof.
  unfold teacherService.getAll, await_call. destruct sdk as [client|]; crunch; reflexivity.
Qed.

Lemma teacherService_getAll_rethrows (client : ApperClient) (error : Thrown) :
  answered client (teacherService.getAll (Some client)) (Reject error) ->
  completion (teacherService.getAll (Some client)) = Throw error.
Proof.
  intros Hreply.
  pose proof (answered_inv _ _ _ _ (teacherService_getAll_sends client) Hreply) as H.
  unfold teacherService.getAll. run_with H. reflexivity.
Qed.

(** C1, as the code has it.  When the transport reports failure (the
    envelope's success flag is off), [ActivityService.getAll] returns the
    empty list after exactly one error notification carrying the transport's
    message, and does not throw.  [teacherService.getAll] raises no
    notification on any path, and rethrows a transport exception to its
    caller. *)
Theorem getAll_transport_failure (client : ApperClient) (response : Envelope.t)
    (Hreply : answered client (ActivityService.getAll (Some client))
                (Resolve (Val response)))
    (Hfailure : Envelope.success response = false) :
  (completion (ActivityService.getAll (Some client)) = Return (VRows [])
   /\ notifications (trace (ActivityService.getAll (Some client)))
      = [NError (Envelope.message response)])
  /\ (forall sdk, notifications (trace (teacherService.getAll sdk)) = [])
  /\ (forall teacherClient error,
        answered teacherClient (teacherService.getAll (Some teacherClient))
          (Reject error) ->
        completion (teacherService.getAll (Some teacherClient)) = Throw error).
Proof.
  split; [|split].
  - apply ActivityService_getAll_failure; assumption.
  - apply teacherService_getAll_silent.
  - apply teacherService_getAll_rethrows.
Qed.

Lemma getAll_transport_failure_witness :
  let response := envelope false (Some "Service unavailable") VUndefined Undefined in
  completion (ActivityService.getAll (Some (answering response))) = Return (VRows [])
  /\ notifications (trace (ActivityService.getAll (Some (answering response))))
     = [NError (Some "Service unavailable")].
Proof.
  intros response.
  apply (getAll_transport_failure (answering response) response).
  - unfold answered; vm_compute; repeat constructor.
  - reflexivity.
Defined.

(** C1 fails on [teacherService.getAll]: told of a failure, it returns the
    empty list without any notification; and when the client call rejects,
    the exception reaches the caller. *)
Lemma teacherService_getAll_failure_unreported :
  let response := envelope false (Some "Service unavailable") VUndefined Undefined in
  let run := teacherService.getAll (Some (answering response)) in
  (answered (answering response) run (Resolve (Val response))
   /\ Envelope.success response = false
   /\ completion run = Return (VRows [])
   /\ notifications (trace run) = []
   /\ notifications (trace run) <> [NError (Envelope.message response)])
  /\ completion (teacherService.getAll (Some (rejecting (ErrorObj "Network Error"))))
     = Throw (ErrorObj "Network Error")
  /\ ~ list_failure_contract teacherService.getAll.
Proof.
  intros response run.
  assert (Hrun : answered (answering response) run (Resolve (Val response)))
    by apply answered_answering.
  split; [|split].
  - repeat split; [exact Hrun | discriminate].
  - reflexivity.
  - intros Hcontract.
    destruct (Hcontract (answering response) response Hrun eq_refl) as [_ Hn].
    discriminate Hn.
Qed.

(** C4.  When the transport reports success with no rows ([data] is the
    empty array, [null], or absent), both [getAll] return the empty list,
    not [null] and not [undefined]. *)
Theorem getAll_no_rows (client : ApperClient) (response : Envelope.t)
    (Hactivity : answered client (ActivityService.getAll (Some client))
                   (Resolve (Val response)))
    (Hteacher : answered client (teacherService.getAll (Some client))
                  (Resolve (Val response)))
    (Hsuccess : Envelope.success response = true)
    (Hdata : Envelope.data response = VRows []
             \/ Envelope.data response = VNull
             \/ Envelope.data response = VUndefined) :
  completion (ActivityService.getAll (Some client)) = Return (VRows [])
  /\ completion (teacherService.getAll (Some client)) = Return (VRows []).
Proof.
  pose proof (answered_inv _ _ _ _ (ActivityService_getAll_sends client) Hactivity) as Ha.
  pose proof (answered_inv _ _ _ _ (teacherService_getAll_sends client) Hteacher) as Ht.
  split.
  - unfold ActivityService.getAll. run_with Ha. rewrite Hsuccess.
    destruct Hdata as [-> | [-> | ->]]; reflexivity.
  - unfold teacherService.getAll. run_with Ht.
    destruct Hdata as [-> | [-> | ->]]; reflexivity.
Qed.

Lemma getAll_no_rows_witness :
  let response := envelope true None VNull Undefined in
  completion (ActivityService.getAll (Some (answering response))) = Return (VRows [])
  /\ completion (teacherService.getAll (Some (answering response))) = Return (VRows []).
Proof.
  intros response.
  apply (getAll_no_rows (answering response) response).
  - unfold answered; vm_compute; repeat constructor.
  - unfold answered; vm_compute; repeat constructor.
  - reflexivity.
  - right; left; reflexivity.
Defined.

(** C10.  [getAll] has no parameter besides its environment, and the one
    request it sends is always the same: the fixed projection, the fixed
    ordering ([ModifiedOn] descending for activities, [name_c] ascending for
    teachers), and the page of limit 100 at offset 0. *)
Theorem getAll_fixed_request (client : ApperClient) :
  calls (trace (ActivityService.getAll (Some client))) =
    [fetchRecords "activity_c" {|
       Params.fields := ["Name"; "Tags"; "subject_c"; "description_c";
                         "status_c"; "priority_c"; "due_date_c";
                         "CreatedOn"; "ModifiedOn"];
       Params.orderBy := Some [{| Params.fieldName := "ModifiedOn";
                                  Params.sorttype := DESC |}];
       Params.pagingInfo := Some {| Params.limit := 100; Params.offset := 0 |}
     |}]
  /\ calls (trace (teacherService.getAll (Some client))) =
    [fetchRecords "teacher_c" {|
       Params.fields := ["Id"; "name_c"; "email_c"; "department_c"];
       Params.orderBy := Some [{| Params.fieldName := "name_c";
                                  Params.sorttype := ASC |}];
       Params.pagingInfo := Some {| Params.limit := 100; Params.offset := 0 |}
     |}].
Proof.
  split.
  - apply ActivityService_getAll_sends.
  - apply teacherService_getAll_sends.
Qed.

(* ===================================================================== *)
(** ** Reading one record *)
(* ===================================================================== *)

(** C6, as the code has it.  When the transport reports success and no row
    ([data] is [null] or absent), [getById] raises no notification;
    [teacherService.getById] returns [null], and [ActivityService.getById]
    returns [response.data] as it is: [null], or [undefined] when the field
    is absent. *)
Theorem getById_not_found (client : ApperClient) (response : Envelope.t)
    (id : JsVal)
    (Hactivity : answered client (ActivityService.getById (Some client) id)
                   (Resolve (Val response)))
    (Hteacher : answered client (teacherService.getById (Some client) id)
                  (Resolve (Val response)))
    (Hsuccess : Envelope.success response = true)
    (Hdata : Envelope.data response = VNull \/ Envelope.data response = VUndefined) :
  (completion (teacherService.getById (Some client) id) = Return VNull
   /\ notifications (trace (teacherService.getById (Some client) id)) = [])
  /\ (completion (ActivityService.getById (Some client) id)
      = Return (Envelope.data response)
      /\ notifications (trace (ActivityService.getById (Some client) id)) = []).
Proof.
  pose proof (answered_inv _ _ _ _ (ActivityService_getById_sends client id) Hactivity) as Ha.
  pose proof (answered_inv _ _ _ _ (teacherService_getById_sends client id) Hteacher) as Ht.
  split.
  - unfold teacherService.getById. run_with Ht.
    destruct Hdata as [-> | ->]; split; reflexivity.
  - unfold ActivityService.getById. run_with Ha. rewrite Hsuccess.
    split; reflexivity.
Qed.

Lemma getById_not_found_witness :
  let response := envelope true None VNull Undefined in
  (completion (teacherService.getById (Some (answering response)) (JNum 999))
   = Return VNull
   /\ notifications (trace (teacherService.getById (Some (answering response))
                              (JNum 999))) = [])
  /\ (completion (ActivityService.getById (Some (answering response)) (JNum 999))
      = Return VNull
      /\ notifications (trace (ActivityService.getById (Some (answering response))
                                 (JNum 999))) = []).
Proof.
  intros response.
  apply (getById_not_found (answering response) response (JNum 999)).
  - unfold answered; vm_compute; repeat constructor.
  - unfold answered; vm_compute; repeat constructor.
  - reflexivity.
  - left; reflexivity.
Defined.

(** C6 fails on [ActivityService.getById] when the envelope has no [data]
    field: the call returns [undefined], not [null]. *)
Lemma ActivityService_getById_absent_data :
  let response := envelope true None VUndefined Undefined in
  let run := ActivityService.getById (Some (answering response)) (JNum 999) in
  answered (answering response) run (Resolve (Val response))
  /\ Envelope.success response = true
  /\ completion run = Return VUndefined
  /\ completion run <> Return VNull.
Proof.
  intros response run. repeat split; [apply answered_answering | discriminate].
Qed.

(** C8, as the code has it.  [getById] neither coerces nor validates its
    identifier: whatever value it is given, it sends one [getRecordById]
    request carrying that value unchanged. *)
Theorem getById_forwards_identifier (client : ApperClient) (id : JsVal) :
  calls (trace (ActivityService.getById (Some client) id)) =
    [getRecordById "activity_c" id {|
       Params.fields := ["Name"; "Tags"; "subject_c"; "description_c";
                         "status_c"; "priority_c"; "due_date_c"];
       Params.orderBy := None;
       Params.pagingInfo := None |}]
  /\ calls (trace (teacherService.getById (Some client) id)) =
    [getRecordById "teacher_c" id {|
       Params.fields := ["Id"; "name_c"; "email_c"; "department_c"];
       Params.orderBy := None;
       Params.pagingInfo := None |}].
Proof.
  split.
  - apply ActivityService_getById_sends.
  - apply teacherService_getById_sends.
Qed.

(** C8 fails: an identifier that is not a positive integer is not rejected,
    it reaches the transport ([-5] through [ActivityService], the string
    [abc] through [teacherService]). *)
Lemma getById_invalid_identifier_sent :
  let client := answering (envelope true None VNull Undefined) in
  (positive_integral (JNum (-5)) = false
   /\ calls (trace (ActivityService.getById (Some client) (JNum (-5)))) =
        [getRecordById "activity_c" (JNum (-5)) {|
           Params.fields := ["Name"; "Tags"; "subject_c"; "description_c";
                             "status_c"; "priority_c"; "due_date_c"];
           Params.orderBy := None;
           Params.pagingInfo := None |}]
   /\ ~ rejects_invalid_identifier ActivityService.getById)
  /\ (positive_integral (JStr "abc") = false
      /\ calls (trace (teacherService.getById (Some client) (JStr "abc"))) =
           [getRecordById "teacher_c" (JStr "abc") {|
              Params.fields := ["Id"; "name_c"; "email_c"; "department_c"];
              Params.orderBy := None;
              Params.pagingInfo := None |}]
      /\ ~ rejects_invalid_identifier teacherService.getById).
Proof.
  intros client. split; (split; [reflexivity | split; [reflexivity|]]).
  - intros Hclaim. specialize (Hclaim client (JNum (-5)) eq_refl). discriminate Hclaim.
  - intros Hclaim. specialize (Hclaim client (JStr "abc") eq_refl). discriminate Hclaim.
Qed.

(* ===================================================================== *)
(** ** Writing *)
(* ===================================================================== *)

Lemma list_to_map_has_exactly (l : list (string * JsVal)) :
  has_exactly l.*1 (list_to_map l).
Proof.
  intros field. symmetry. apply not_elem_of_list_to_map.
Qed.

(** C5.  Whatever the payload holds, the one record that [create] sends has
    exactly the service's writeable fields, and the one that [update] sends
    has those and [Id]: a payload field outside the list is not in the
    outgoing record, and the request is sent all the same. *)
Theorem writes_send_writeable_fields (client : ApperClient)
    (payload : Obj) (id : JsVal) :
  (exists record,
      calls (trace (ActivityService.create (Some client) payload))
      = [createRecord "activity_c" [record]]
      /\ has_exactly ActivityService_writeable record)
  /\ (exists record,
      calls (trace (ActivityService.update (Some client) id payload))
      = [updateRecord "activity_c" [record]]
      /\ has_exactly ("Id" :: ActivityService_writeable) record)
  /\ (exists record,
      calls (trace (teacherService.create (Some client) payload))
      = [createRecord "teacher_c" [record]]
      /\ has_exactly teacherService_writeable record)
  /\ (exists record,
      calls (trace (teacherService.update (Some client) id payload))
      = [updateRecord "teacher_c" [record]]
      /\ has_exactly ("Id" :: teacherService_writeable) record).
Proof.
  repeat split.
  - eexists; split; [apply ActivityService_create_sends|].
    apply list_to_map_has_exactly.
  - eexists; split; [apply ActivityService_update_sends|].
    apply list_to_map_has_exactly.
  - eexists; split; [apply teacherService_create_sends|].
    apply list_to_map_has_exactly.
  - eexists; split; [apply teacherService_update_sends|].
    apply list_to_map_has_exactly.
Qed.

(** An unknown payload field is dropped: a sample run. *)
Example create_drops_unknown_field :
  let payload : Obj :=
    list_to_map [("Name", JStr "Essay"); ("subject_c", JStr "English");
                 ("Id", JNum 42); ("CreatedOn", JStr "2024-01-01")] in
  exists record,
    calls (trace (ActivityService.create
                    (Some (answering (envelope true None VUndefined Undefined)))
                    payload))
    = [createRecord "activity_c" [record]]
    /\ record !! "Name" = Some (JStr "Essay")
    /\ record !! "Tags" = Some (JStr "")
    /\ record !! "due_date_c" = Some JUndefined
    /\ record !! "Id" = None
    /\ record !! "CreatedOn" = None.
Proof.
  intros payload. eexists. split; [apply ActivityService_create_sends|].
  repeat split; vm_compute; reflexivity.
Qed.

(** C9.  When the envelope of a [teacherService] write succeeds and has no
    [results] field, [create], [update] and [delete] fall through and return
    [undefined]: no record, and neither [true] nor [false]. *)
Theorem teacherService_no_results_undefined (client : ApperClient)
    (response : Envelope.t) (teacherId : JsVal) (teacherData : Obj)
    (Hcreate : answered client (teacherService.create (Some client) teacherData)
                 (Resolve (Val response)))
    (Hupdate : answered client
                 (teacherService.update (Some client) teacherId teacherData)
                 (Resolve (Val response)))
    (Hdelete : answered client (teacherService.delete (Some client) teacherId)
                 (Resolve (Val response)))
    (Hsuccess : Envelope.success response = true)
    (Hresults : Envelope.results response = Undefined) :
  completion (teacherService.create (Some client) teacherData) = Return VUndefined
  /\ completion (teacherService.update (Some client) teacherId teacherData)
     = Return VUndefined
  /\ completion (teacherService.delete (Some client) teacherId) = Return VUndefined.
Proof.
  pose proof (answered_inv _ _ _ _ (teacherService_create_sends client teacherData)
                Hcreate) as Hc.
  pose proof (answered_inv _ _ _ _
                (teacherService_update_sends client teacherId teacherData)
                Hupdate) as Hu.
  pose proof (answered_inv _ _ _ _ (teacherService_delete_sends client teacherId)
                Hdelete) as Hd.
  repeat split.
  - unfold teacherService.create. run_with Hc. rewrite Hsuccess, Hresults. reflexivity.
  - unfold teacherService.update. run_with Hu. rewrite Hsuccess, Hresults. reflexivity.
  - unfold teacherService.delete. run_with Hd. rewrite Hsuccess, Hresults. reflexivity.
Qed.

Lemma teacherService_no_results_undefined_witness :
  let response := envelope true None VUndefined Undefined in
  let client := answering response in
  let teacherData : Obj := {[ "name_c" := JStr "Ada" ]} in
  completion (teacherService.create (Some client) teacherData) = Return VUndefined
  /\ completion (teacherService.update (Some client) (JNum 7) teacherData)
     = Return VUndefined
  /\ completion (teacherService.delete (Some client) (JNum 7)) = Return VUndefined.
Proof.
  intros response client teacherData.
  apply (teacherService_no_results_undefined client response (JNum 7) teacherData).
  - unfold answered; vm_compute; repeat constructor.
  - unfold answered; vm_compute; repeat constructor.
  - unfold answered; vm_compute; repeat constructor.
  - reflexivity.
  - reflexivity.
Defined.

(** Split the three cases of [write_contract] and evaluate each. *)
Ltac settle_write Hsuccess :=
  rewrite Hsuccess; eval_run;
  split; [|split];
  [ intros results Hresults Hrejected;
    rewrite Hresults; eval_run;
    rewrite (length_pos _ Hrejected), forEach_report_record; eval_run;
    rewrite app_nil_r, notifications_toasts; split; reflexivity
  | intros results first rest Hresults Hrejected Hsucceeded;
    rewrite Hresults; eval_run;
    rewrite Hrejected, Hsucceeded; split; reflexivity
  | intros [Hresults | [Hresults | Hresults]];
    rewrite Hresults; split; reflexivity ].

Lemma ActivityService_create_contract (client : ApperClient)
    (response : Envelope.t) (activityData : Obj) :
  answered client (ActivityService.create (Some client) activityData)
    (Resolve (Val response)) ->
  Envelope.success response = true ->
  write_contract (ActivityService.create (Some client) activityData) response
    "Activity created successfully".
Proof.
  intros Hreply Hsuccess.
  pose proof (answered_inv _ _ _ _
                (ActivityService_create_sends client activityData) Hreply) as H.
  unfold write_contract, ActivityService.create. run_with H.
  settle_write Hsuccess.
Qed.

Lemma ActivityService_update_contract (client : ApperClient)
    (response : Envelope.t) (id : JsVal) (activityData : Obj) :
  answered client (ActivityService.update (Some client) id activityData)
    (Resolve (Val response)) ->
  Envelope.success response = true ->
  write_contract (ActivityService.update (Some client) id activityData) response
    "Activity updated successfully".
Proof.
  intros Hreply Hsuccess.
  pose proof (answered_inv _ _ _ _
                (ActivityService_update_sends client id activityData) Hreply) as H.
  unfold write_contract, ActivityService.update. run_with H.
  settle_write Hsuccess.
Qed.

Ltac settle_teacher_write Hsuccess :=
  rewrite Hsuccess; eval_run;
  split; [|split];
  [ crunch; reflexivity
  | intros results record Hresults Hfirst;
    rewrite Hresults; eval_run;
    assert (Hrejected : rejected results <> [])
      by (intros Hnil; rewrite Hnil in Hfirst; discriminate Hfirst);
    rewrite (length_pos _ Hrejected), forEach_throw_message, Hfirst;
    reflexivity
  | intros results Hresults Hrejected;
    rewrite Hresults; eval_run; rewrite Hrejected; reflexivity ].

Lemma teacherService_create_behaviour (client : ApperClient)
    (response : Envelope.t) (teacherData : Obj) :
  answered client (teacherService.create (Some client) teacherData)
    (Resolve (Val response)) ->
  Envelope.success response = true ->
  teacher_write_behaviour (teacherService.create (Some client) teacherData) response.
Proof.
  intros Hreply Hsuccess.
  pose proof (answered_inv _ _ _ _
                (teacherService_create_sends client teacherData) Hreply) as H.
  unfold teacher_write_behaviour, teacherService.create. run_with H.
  settle_teacher_write Hsuccess.
Qed.

Lemma teacherService_update_behaviour (client : ApperClient)
    (response : Envelope.t) (teacherId : JsVal) (teacherData : Obj) :
  answered client (teacherService.update (Some client) teacherId teacherData)
    (Resolve (Val response)) ->
  Envelope.success response = true ->
  teacher_write_behaviour
    (teacherService.update (Some client) teacherId teacherData) response.
Proof.
  intros Hreply Hsuccess.
  pose proof (answered_inv _ _ _ _
                (teacherService_update_sends client teacherId teacherData)
                Hreply) as H.
  unfold teacher_write_behaviour, teacherService.update. run_with H.
  settle_teacher_write Hsuccess.
Qed.

(** C2, as the code has it.  For a write whose envelope succeeded,
    [ActivityService.create] and [update] partition [response.results]:
    with a rejected record they return [null] after one notification per
    field-level reason (label, colon, message) and one per record-level
    message; with none rejected and one succeeded they return the first
    succeeded record's data after exactly one success notification; with
    empty or absent results they return [null].  [teacherService.create] and
    [update] raise no notification: they throw an [Error] with the first
    message found on a rejected record, and with no rejected record return
    the first succeeded record's data, [undefined] when there is none. *)
Theorem write_outcomes (client : ApperClient) (response : Envelope.t)
    (id : JsVal) (payload : Obj)
    (Hcreate : answered client (ActivityService.create (Some client) payload)
                 (Resolve (Val response)))
    (Hupdate : answered client (ActivityService.update (Some client) id payload)
                 (Resolve (Val response)))
    (Htcreate : answered client (teacherService.create (Some client) payload)
                  (Resolve (Val response)))
    (Htupdate : answered client (teacherService.update (Some client) id payload)
                  (Resolve (Val response)))
    (Hsuccess : Envelope.success response = true) :
  write_contract (ActivityService.create (Some client) payload) response
    "Activity created successfully"
  /\ write_contract (ActivityService.update (Some client) id payload) response
       "Activity updated successfully"
  /\ teacher_write_behaviour (teacherService.create (Some client) payload) response
  /\ teacher_write_behaviour (teacherService.update (Some client) id payload) response.
Proof.
  split; [|split; [|split]].
  - apply ActivityService_create_contract; assumption.
  - apply ActivityService_update_contract; assumption.
  - apply teacherService_create_behaviour; assumption.
  - apply teacherService_update_behaviour; assumption.
Qed.

Lemma write_outcomes_witness :
  let response :=
    envelope true None VUndefined
      (Val [refused (Some "Validation failed") (Some [due_date_required])]) in
  let client := answering response in
  let payload : Obj := {[ "Name" := JStr "Essay" ]} in
  completion (ActivityService.update (Some client) (JNum 7) payload) = Return VNull
  /\ notifications (trace (ActivityService.update (Some client) (JNum 7) payload))
     = [NError (Some "due_date_c: required"); NError (Some "Validation failed")].
Proof.
  intros response client payload.
  destruct (write_outcomes client response (JNum 7) payload) as (_ & Hu & _).
  - unfold answered; vm_compute; repeat constructor.
  - unfold answered; vm_compute; repeat constructor.
  - unfold answered; vm_compute; repeat constructor.
  - unfold answered; vm_compute; repeat constructor.
  - reflexivity.
  - destruct Hu as [Hrejected _].
    apply (Hrejected _ eq_refl). discriminate.
Defined.

(** C2 fails on [teacherService.create]: the one record succeeded, and the
    call returns its data without a success notification. *)
Lemma teacherService_create_no_success_notification :
  let row : Obj := {[ "Id" := JNum 42 ]} in
  let response := envelope true None VUndefined (Val [accepted (VRow row)]) in
  let run := teacherService.create (Some (answering response))
               {[ "name_c" := JStr "Ada" ]} in
  answered (answering response) run (Resolve (Val response))
  /\ Envelope.success response = true
  /\ completion run = Return (VRow row)
  /\ notifications (trace run) = []
  /\ forall done, ~ write_contract run response done.
Proof.
  intros row response run.
  repeat split; [apply answered_answering|].
  intros done (_ & Hsucceeded & _).
  destruct (Hsucceeded _ _ _ eq_refl eq_refl eq_refl) as [_ Hn].
  discriminate Hn.
Qed.

(** C3 at its failing input.  The transport rejects the one record with a
    field-level error and no record-level message.  [teacherService.create]
    and [update] then complete normally with [undefined]: nothing is thrown,
    nothing is notified, and the reason is lost.  [ActivityService.create],
    given the same response, reports the reason and returns [null]. *)
Theorem teacherService_write_loses_field_errors :
  let response :=
    envelope true None VUndefined (Val [refused None (Some [email_required])]) in
  let client := answering response in
  let teacherData : Obj :=
    list_to_map [("name_c", JStr "Ada"); ("email_c", JStr "");
                 ("department_c", JStr "Maths")] in
  (completion (teacherService.create (Some client) teacherData) = Return VUndefined
   /\ notifications (trace (teacherService.create (Some client) teacherData)) = [])
  /\ (completion (teacherService.update (Some client) (JNum 7) teacherData)
      = Return VUndefined
      /\ notifications (trace (teacherService.update (Some client) (JNum 7)
                                 teacherData)) = [])
  /\ (completion (ActivityService.create (Some client) teacherData) = Return VNull
      /\ notifications (trace (ActivityService.create (Some client) teacherData))
         = [NError (Some "Email: Email is required")]).
Proof.
  intros response client teacherData. repeat split.
Qed.

(* ===================================================================== *)
(** ** Deleting *)
(* ===================================================================== *)

Lemma ActivityService_delete_true_iff (results : list RecordResult.t) :
  (if (0 <? length (rejected results))%nat then false
   else (0 <? length (succeeded results))%nat) = true
  <-> results <> [] /\ rejected results = [].
Proof.
  destruct (rejected results) as [|r l] eqn:Hrejected; cbn.
  - rewrite (succeeded_all _ Hrejected).
    destruct results as [|r results]; cbn.
    + split; [discriminate|]. intros [H _]. contradiction.
    + split; [|reflexivity]. intros _. split; [discriminate | reflexivity].
  - split; [discriminate|]. intros [_ H]. discriminate H.
Qed.

(** C7, as the code has it.  [delete] takes one identifier and sends a
    request for exactly that one ([ActivityService] after [parseInt]).  On a
    failed envelope [ActivityService.delete] returns [false] after one
    notification with the transport's message, and [teacherService.delete]
    throws an [Error] with that message.  On a successful envelope
    [ActivityService.delete] returns [true] exactly when [results] is
    present, not empty, and has no rejected record, and then raises one
    success notification; with a rejected record it returns [false] after
    one notification per rejected record that has a message.
    [teacherService.delete] returns [true] when [results] is not empty and
    has no rejected record, and raises no notification. *)
Theorem delete_outcomes (client : ApperClient) (response : Envelope.t) (id : JsVal)
    (Hactivity : answered client (ActivityService.delete (Some client) id)
                   (Resolve (Val response)))
    (Hteacher : answered client (teacherService.delete (Some client) id)
                  (Resolve (Val response))) :
  let activity := ActivityService.delete (Some client) id in
  let teacher := teacherService.delete (Some client) id in
  (calls (trace activity) = [deleteRecord "activity_c" [parseInt id]]
   /\ calls (trace teacher) = [deleteRecord "teacher_c" [id]])
  /\ (Envelope.success response = false ->
      (completion activity = Return (VBool false)
       /\ notifications (trace activity) = [NError (Envelope.message response)])
      /\ (completion teacher = Throw (new_Error (Envelope.message response))
          /\ notifications (trace teacher) = []))
  /\ (Envelope.success response = true ->
      (completion activity = Return (VBool true)
       <-> exists results,
           Envelope.results response = Val results
           /\ results <> [] /\ rejected results = [])
      /\ (forall results,
            Envelope.results response = Val results ->
            rejected results <> [] ->
            completion activity = Return (VBool false)
            /\ notifications (trace activity)
               = flat_map record_message (rejected results))
      /\ (forall results,
            Envelope.results response = Val results ->
            results <> [] -> rejected results = [] ->
            notifications (trace activity)
            = [NSuccess "Activity deleted successfully"]
            /\ completion teacher = Return (VBool true)
            /\ notifications (trace teacher) = [])).
Proof.
  intros activity teacher.
  pose proof (ActivityService_delete_sends client id) as Hsa.
  pose proof (teacherService_delete_sends client id) as Hst.
  pose proof (answered_inv _ _ _ _ Hsa Hactivity) as Ha.
  pose proof (answered_inv _ _ _ _ Hst Hteacher) as Ht.
  split; [split; assumption|].
  subst activity teacher. clear Hsa Hst Hactivity Hteacher.
  unfold ActivityService.delete, teacherService.delete.
  run_with Ha. run_with Ht.
  split.
  - intros Hfailure. rewrite Hfailure. repeat split.
  - intros Hsuccess. rewrite Hsuccess. eval_run. split; [|split].
    + destruct (Envelope.results response) as [| |results] eqn:Hresults; eval_run.
      * split; [discriminate|]. intros (results & H & _). discriminate H.
      * split; [discriminate|]. intros (results & H & _). discriminate H.
      * pose proof (ActivityService_delete_true_iff results) as Hiff.
        destruct (0 <? length (rejected results))%nat eqn:Hfailed.
        -- rewrite forEach_record_message. eval_run.
           split; [discriminate|].
           intros (results' & H & Hne & Hrej). injection H as <-.
           apply proj2 in Hiff. specialize (Hiff (conj Hne Hrej)). discriminate Hiff.
        -- destruct (0 <? length (succeeded results))%nat eqn:Hsucceeded; eval_run.
           ++ split; [|reflexivity]. intros _. exists results.
              split; [reflexivity|]. apply Hiff. reflexivity.
           ++ split; [discriminate|].
              intros (results' & H & Hne & Hrej). injection H as <-.
              apply proj2 in Hiff. specialize (Hiff (conj Hne Hrej)). discriminate Hiff.
    + intros results Hresults Hrejected. rewrite Hresults. eval_run.
      rewrite (length_pos _ Hrejected), forEach_record_message. eval_run.
      rewrite app_nil_r, notifications_toasts. split; reflexivity.
    + intros results Hresults Hne Hrejected. rewrite Hresults. eval_run.
      rewrite Hrejected, (succeeded_all _ Hrejected), (length_pos _ Hne).
      repeat split.
Qed.

Lemma delete_outcomes_witness :
  let response := envelope false (Some "Record is locked") VUndefined Undefined in
  let client := answering response in
  (completion (ActivityService.delete (Some client) (JStr "12")) = Return (VBool false)
   /\ notifications (trace (ActivityService.delete (Some client) (JStr "12")))
      = [NError (Some "Record is locked")])
  /\ (completion (teacherService.delete (Some client) (JStr "12"))
      = Throw (ErrorObj "Record is locked")
      /\ notifications (trace (teacherService.delete (Some client) (JStr "12"))) = []).
Proof.
  intros response client.
  destruct (delete_outcomes client response (JStr "12")) as (_ & Hfailure & _).
  - unfold answered; vm_compute; repeat constructor.
  - unfold answered; vm_compute; repeat constructor.
  - apply Hfailure. reflexivity.
Defined.

(** C7 fails.  Given the sequence [[1, 2, 3]], [ActivityService.delete] asks
    for the deletion of identifier [1] alone and [teacherService.delete] for
    that of a single element, the array itself: neither sends a batch.  And
    on a failed envelope [teacherService.delete] throws instead of returning
    a failure value. *)
Lemma delete_is_not_batched :
  let ids := JArr [JNum 1; JNum 2; JNum 3] in
  let accepting := answering (envelope true None VUndefined (Val [accepted VUndefined])) in
  let failing := answering (envelope false (Some "Record is locked") VUndefined Undefined) in
  calls (trace (ActivityService.delete (Some accepting) ids))
  = [deleteRecord "activity_c" [JNum 1]]
  /\ completion (ActivityService.delete (Some accepting) ids) = Return (VBool true)
  /\ calls (trace (teacherService.delete (Some accepting) ids))
     = [deleteRecord "teacher_c" [JArr [JNum 1; JNum 2; JNum 3]]]
  /\ completion (teacherService.delete (Some failing) (JNum 1))
     = Throw (ErrorObj "Record is locked").
Proof.
  intros ids accepting failing. repeat split.
Qed.


(* ===================================================================== *)
(** ** [ActivityService]: failures become values *)
(* ===================================================================== *)

(** Split the conjunctions of the goal, and nothing else. *)
Ltac conjs := repeat match goal with |- _ /\ _ => split end.

(** Evaluate a method up to the client's reply and split on it, keeping the
    reply as [Hreply]. *)
Ltac by_reply client :=
  unfold await_call; cbv delta [ActivityService.tableName]; eval_run;
  match goal with
  | |- context [client ?r] =>
      destruct (client r) as [[| |response]|error] eqn:Hreply
  end;
  eval_run.

Ltac settle_activity Hsafe :=
  match goal with
  | Hreply : _ = Reject ?error |- _ =>
      unfold ActivityService.error_message;
      rewrite (Hsafe _ _ Hreply); eexists; reflexivity
  | _ => unfold ActivityService.error_message; crunch; eexists; reflexivity
  end.

Lemma ActivityService_returns (sdk : option ApperClient) (id : JsVal)
    (payload : Obj) :
  (forall client, sdk = Some client -> no_nullish_rejection client) ->
  (exists v, completion (ActivityService.getAll sdk) = Return v)
  /\ (exists v, completion (ActivityService.getById sdk id) = Return v)
  /\ (exists v, completion (ActivityService.create sdk payload) = Return v)
  /\ (exists v, completion (ActivityService.update sdk id payload) = Return v)
  /\ (exists v, completion (ActivityService.delete sdk id) = Return v).
Proof.
  intros Hsdk. destruct sdk as [client|].
  - pose proof (Hsdk client eq_refl) as Hsafe. clear Hsdk.
    conjs.
    + unfold ActivityService.getAll. by_reply client; settle_activity Hsafe.
    + unfold ActivityService.getById. by_reply client; settle_activity Hsafe.
    + unfold ActivityService.create. by_reply client; settle_activity Hsafe.
    + unfold ActivityService.update. by_reply client; settle_activity Hsafe.
    + unfold ActivityService.delete. by_reply client; settle_activity Hsafe.
  - conjs; eexists; reflexivity.
Qed.

(** Whatever the client does, short of rejecting a call with [undefined] or
    [null], and whether or not the SDK is loaded, every [ActivityService]
    method completes normally: no exception reaches the caller. *)
Theorem ActivityService_never_throws (sdk : option ApperClient) (id : JsVal)
    (payload : Obj)
    (Hsdk : forall client, sdk = Some client -> no_nullish_rejection client) :
  (exists v, completion (ActivityService.getAll sdk) = Return v)
  /\ (exists v, completion (ActivityService.getById sdk id) = Return v)
  /\ (exists v, completion (ActivityService.create sdk payload) = Return v)
  /\ (exists v, completion (ActivityService.update sdk id payload) = Return v)
  /\ (exists v, completion (ActivityService.delete sdk id) = Return v).
Proof. apply ActivityService_returns. exact Hsdk. Qed.

Lemma ActivityService_never_throws_witness :
  let sdk := Some (rejecting (ErrorObj "Network Error")) in
  let payload : Obj := {[ "Name" := JStr "Essay" ]} in
  (exists v, completion (ActivityService.getAll sdk) = Return v)
  /\ (exists v, completion (ActivityService.getById sdk (JNum 7)) = Return v)
  /\ (exists v, completion (ActivityService.create sdk payload) = Return v)
  /\ (exists v, completion (ActivityService.update sdk (JNum 7) payload) = Return v)
  /\ (exists v, completion (ActivityService.delete sdk (JNum 7)) = Return v).
Proof.
  intros sdk payload.
  apply (ActivityService_never_throws sdk (JNum 7) payload).
  intros client Hclient req error Hreply.
  injection Hclient as <-. injection Hreply as <-. reflexivity.
Defined.

(** When the client call rejects with anything but [undefined] or [null],
    each [ActivityService] method returns its failure value ([[]], [null] or
    [false]) after exactly one notification, the method's own fixed text. *)
Theorem ActivityService_rejection_default (client : ApperClient) (error : Thrown)
    (id : JsVal) (payload : Obj)
    (Hrejects : forall req, client req = Reject error)
    (Herror : nullish_thrown error = false) :
  (completion (ActivityService.getAll (Some client)) = Return (VRows [])
   /\ notifications (trace (ActivityService.getAll (Some client)))
      = [NError (Some "Failed to load activities")])
  /\ (completion (ActivityService.getById (Some client) id) = Return VNull
      /\ notifications (trace (ActivityService.getById (Some client) id))
         = [NError (Some "Failed to load activity")])
  /\ (completion (ActivityService.create (Some client) payload) = Return VNull
      /\ notifications (trace (ActivityService.create (Some client) payload))
         = [NError (Some "Failed to create activity")])
  /\ (completion (ActivityService.update (Some client) id payload) = Return VNull
      /\ notifications (trace (ActivityService.update (Some client) id payload))
         = [NError (Some "Failed to update activity")])
  /\ (completion (ActivityService.delete (Some client) id) = Return (VBool false)
      /\ notifications (trace (ActivityService.delete (Some client) id))
         = [NError (Some "Failed to delete activity")]).
Proof.
  conjs.
  all: unfold ActivityService.getAll, ActivityService.getById,
         ActivityService.create, ActivityService.update, ActivityService.delete,
         ActivityService.error_message;
       run_with Hrejects; rewrite Herror; reflexivity.
Qed.

Lemma ActivityService_rejection_default_witness :
  completion (ActivityService.delete (Some (rejecting (ErrorObj "timeout"))) (JNum 7))
  = Return (VBool false)
  /\ notifications (trace (ActivityService.delete
                             (Some (rejecting (ErrorObj "timeout"))) (JNum 7)))
     = [NError (Some "Failed to delete activity")].
Proof.
  destruct (ActivityService_rejection_default (rejecting (ErrorObj "timeout"))
              (ErrorObj "timeout") (JNum 7) ∅) as (_ & _ & _ & _ & H).
  - intros req. reflexivity.
  - reflexivity.
  - exact H.
Defined.

(** The one exception that [ActivityService] lets through: when the client
    call rejects with [undefined] or [null], the [catch] block itself fails
    on [error.message], so each method throws a [TypeError] and shows
    nothing. *)
Theorem ActivityService_nullish_rejection_escapes (client : ApperClient)
    (error : Thrown) (id : JsVal) (payload : Obj)
    (Hrejects : forall req, client req = Reject error)
    (Herror : nullish_thrown error = true) :
  (completion (ActivityService.getAll (Some client)) = Throw TypeErrorObj
   /\ notifications (trace (ActivityService.getAll (Some client))) = [])
  /\ (completion (ActivityService.getById (Some client) id) = Throw TypeErrorObj
      /\ notifications (trace (ActivityService.getById (Some client) id)) = [])
  /\ (completion (ActivityService.create (Some client) payload) = Throw TypeErrorObj
      /\ notifications (trace (ActivityService.create (Some client) payload)) = [])
  /\ (completion (ActivityService.update (Some client) id payload)
      = Throw TypeErrorObj
      /\ notifications (trace (ActivityService.update (Some client) id payload)) = [])
  /\ (completion (ActivityService.delete (Some client) id) = Throw TypeErrorObj
      /\ notifications (trace (ActivityService.delete (Some client) id)) = []).
Proof.
  conjs.
  all: unfold ActivityService.getAll, ActivityService.getById,
         ActivityService.create, ActivityService.update, ActivityService.delete,
         ActivityService.error_message;
       run_with Hrejects; rewrite Herror; reflexivity.
Qed.

Lemma ActivityService_nullish_rejection_escapes_witness :
  completion (ActivityService.getAll (Some (rejecting (ThrownVal JNull))))
  = Throw TypeErrorObj
  /\ notifications (trace (ActivityService.getAll
                             (Some (rejecting (ThrownVal JNull))))) = [].
Proof.
  destruct (ActivityService_nullish_rejection_escapes
              (rejecting (ThrownVal JNull)) (ThrownVal JNull) (JNum 7) ∅)
    as (H & _).
  - intros req. reflexivity.
  - reflexivity.
  - exact H.
Defined.

(** When the transport reports failure, [ActivityService.getById], [create]
    and [update] return [null] after exactly one notification carrying the
    transport's message; [results] and [data] are not looked at. *)
Theorem ActivityService_failed_envelope (client : ApperClient)
    (response : Envelope.t) (id : JsVal) (payload : Obj)
    (Hreplies : forall req, client req = Resolve (Val response))
    (Hfailure : Envelope.success response = false) :
  (completion (ActivityService.getById (Some client) id) = Return VNull
   /\ notifications (trace (ActivityService.getById (Some client) id))
      = [NError (Envelope.message response)])
  /\ (completion (ActivityService.create (Some client) payload) = Return VNull
      /\ notifications (trace (ActivityService.create (Some client) payload))
         = [NError (Envelope.message response)])
  /\ (completion (ActivityService.update (Some client) id payload) = Return VNull
      /\ notifications (trace (ActivityService.update (Some client) id payload))
         = [NError (Envelope.message response)]).
Proof.
  conjs.
  all: unfold ActivityService.getById, ActivityService.create,
         ActivityService.update;
       run_with Hreplies; rewrite Hfailure; reflexivity.
Qed.

Lemma ActivityService_failed_envelope_witness :
  let response :=
    envelope false (Some "Permission denied") (VRow ∅) (Val [accepted (VRow ∅)]) in
  completion (ActivityService.create (Some (answering response)) ∅) = Return VNull
  /\ notifications (trace (ActivityService.create (Some (answering response)) ∅))
     = [NError (Some "Permission denied")].
Proof.
  intros response.
  destruct (ActivityService_failed_envelope (answering response) response
              (JNum 7) ∅) as (_ & H & _).
  - intros req. reflexivity.
  - reflexivity.
  - exact H.
Defined.


(* ===================================================================== *)
(** ** [teacherService]: failures are thrown *)
(* ===================================================================== *)

Lemma teacherService_silent (sdk : option ApperClient) (id : JsVal) (payload : Obj) :
  notifications (trace (teacherService.getAll sdk)) = []
  /\ notifications (trace (teacherService.getById sdk id)) = []
  /\ notifications (trace (teacherService.create sdk payload)) = []
  /\ notifications (trace (teacherService.update sdk id payload)) = []
  /\ notifications (trace (teacherService.delete sdk id)) = [].
Proof.
  destruct sdk as [client|]; conjs; try reflexivity.
  all: unfold teacherService.getAll, teacherService.getById, teacherService.create,
         teacherService.update, teacherService.delete, await_call;
       crunch; reflexivity.
Qed.

(** No [teacherService] method ever raises a notification, whatever the
    environment, the arguments and the client's behaviour. *)
Theorem teacherService_never_notifies (sdk : option ApperClient) (id : JsVal)
    (payload : Obj) :
  notifications (trace (teacherService.getAll sdk)) = []
  /\ notifications (trace (teacherService.getById sdk id)) = []
  /\ notifications (trace (teacherService.create sdk payload)) = []
  /\ notifications (trace (teacherService.update sdk id payload)) = []
  /\ notifications (trace (teacherService.delete sdk id)) = [].
Proof. apply teacherService_silent. Qed.

(** When the client call rejects, every [teacherService] method throws the
    very value the call rejected with, after logging it once. *)
Theorem teacherService_rethrows (client : ApperClient) (error : Thrown)
    (id : JsVal) (payload : Obj)
    (Hrejects : forall req, client req = Reject error) :
  completion (teacherService.getById (Some client) id) = Throw error
  /\ completion (teacherService.create (Some client) payload) = Throw error
  /\ completion (teacherService.update (Some client) id payload) = Throw error
  /\ completion (teacherService.delete (Some client) id) = Throw error.
Proof.
  conjs.
  all: unfold teacherService.getById, teacherService.create,
         teacherService.update, teacherService.delete;
       run_with Hrejects; reflexivity.
Qed.

Lemma teacherService_rethrows_witness :
  let client := rejecting (ThrownVal (JStr "offline")) in
  completion (teacherService.getById (Some client) (JNum 7))
  = Throw (ThrownVal (JStr "offline"))
  /\ completion (teacherService.create (Some client) ∅)
     = Throw (ThrownVal (JStr "offline"))
  /\ completion (teacherService.update (Some client) (JNum 7) ∅)
     = Throw (ThrownVal (JStr "offline"))
  /\ completion (teacherService.delete (Some client) (JNum 7))
     = Throw (ThrownVal (JStr "offline")).
Proof.
  intros client.
  apply (teacherService_rethrows client (ThrownVal (JStr "offline")) (JNum 7) ∅).
  intros req. reflexivity.
Defined.

(** When the transport reports failure, [teacherService.create] and [update]
    throw an [Error] whose message is the transport's (empty when the
    envelope has none), whatever [results] holds. *)
Theorem teacherService_failed_envelope_throws (client : ApperClient)
    (response : Envelope.t) (id : JsVal) (payload : Obj)
    (Hreplies : forall req, client req = Resolve (Val response))
    (Hfailure : Envelope.success response = false) :
  completion (teacherService.create (Some client) payload)
  = Throw (ErrorObj (default "" (Envelope.message response)))
  /\ completion (teacherService.update (Some client) id payload)
     = Throw (ErrorObj (default "" (Envelope.message response))).
Proof.
  conjs.
  all: unfold teacherService.create, teacherService.update;
       run_with Hreplies; rewrite Hfailure; reflexivity.
Qed.

Lemma teacherService_failed_envelope_throws_witness :
  let response := envelope false None VUndefined (Val [accepted (VRow ∅)]) in
  completion (teacherService.create (Some (answering response)) ∅)
  = Throw (ErrorObj "")
  /\ completion (teacherService.update (Some (answering response)) (JNum 7) ∅)
     = Throw (ErrorObj "").
Proof.
  intros response.
  apply (teacherService_failed_envelope_throws (answering response) response
           (JNum 7) ∅).
  - intros req. reflexivity.
  - reflexivity.
Defined.

(** A client that resolves with nothing ([undefined] or [null]) instead of
    an envelope: [teacherService.getAll] and [getById] take it for "no rows"
    and return [[]] and [null], while [create], [update] and [delete] throw
    a [TypeError]; every [ActivityService] method returns its failure value
    after its fixed notification. *)
Theorem nullish_response (client : ApperClient) (response : Nullable Envelope.t)
    (id : JsVal) (payload : Obj)
    (Hreplies : forall req, client req = Resolve response)
    (Hnullish : response = Undefined \/ response = Null) :
  (completion (teacherService.getAll (Some client)) = Return (VRows [])
   /\ completion (teacherService.getById (Some client) id) = Return VNull
   /\ completion (teacherService.create (Some client) payload) = Throw TypeErrorObj
   /\ completion (teacherService.update (Some client) id payload)
      = Throw TypeErrorObj
   /\ completion (teacherService.delete (Some client) id) = Throw TypeErrorObj)
  /\ (completion (ActivityService.getAll (Some client)) = Return (VRows [])
      /\ notifications (trace (ActivityService.getAll (Some client)))
         = [NError (Some "Failed to load activities")])
  /\ (completion (ActivityService.getById (Some client) id) = Return VNull
      /\ notifications (trace (ActivityService.getById (Some client) id))
         = [NError (Some "Failed to load activity")])
  /\ (completion (ActivityService.create (Some client) payload) = Return VNull
      /\ notifications (trace (ActivityService.create (Some client) payload))
         = [NError (Some "Failed to create activity")])
  /\ (completion (ActivityService.update (Some client) id payload) = Return VNull
      /\ notifications (trace (ActivityService.update (Some client) id payload))
         = [NError (Some "Failed to update activity")])
  /\ (completion (ActivityService.delete (Some client) id) = Return (VBool false)
      /\ notifications (trace (ActivityService.delete (Some client) id))
         = [NError (Some "Failed to delete activity")]).
Proof.
  conjs.
  all: unfold teacherService.getAll, teacherService.getById, teacherService.create,
         teacherService.update, teacherService.delete,
         ActivityService.getAll, ActivityService.getById, ActivityService.create,
         ActivityService.update, ActivityService.delete;
       run_with Hreplies; destruct Hnullish as [-> | ->]; reflexivity.
Qed.

Lemma nullish_response_witness :
  completion (teacherService.getAll (Some (fun _ => Resolve Undefined)))
  = Return (VRows [])
  /\ completion (teacherService.getById (Some (fun _ => Resolve Undefined)) (JNum 7))
     = Return VNull
  /\ completion (teacherService.create (Some (fun _ => Resolve Undefined)) ∅)
     = Throw TypeErrorObj
  /\ completion (teacherService.update (Some (fun _ => Resolve Undefined)) (JNum 7) ∅)
     = Throw TypeErrorObj
  /\ completion (teacherService.delete (Some (fun _ => Resolve Undefined)) (JNum 7))
     = Throw TypeErrorObj.
Proof.
  destruct (nullish_response (fun _ => Resolve Undefined) Undefined (JNum 7) ∅)
    as (H & _).
  - intros req. reflexivity.
  - left. reflexivity.
  - exact H.
Defined.

(** On an envelope that succeeded and has results, what [teacherService]
    does is decided by the first rejected record that carries a message: if
    there is one, [create], [update] and [delete] throw an [Error] with that
    message; if there is none (even though records were rejected), [create]
    and [update] return the first succeeded record's data, [undefined] when
    no record succeeded, and [delete] returns whether any record
    succeeded. *)
Theorem teacherService_results_outcome (client : ApperClient)
    (response : Envelope.t) (results : list RecordResult.t)
    (id : JsVal) (payload : Obj)
    (Hreplies : forall req, client req = Resolve (Val response))
    (Hsuccess : Envelope.success response = true)
    (Hresults : Envelope.results response = Val results) :
  (forall record,
      first_message (rejected results) = Some record ->
      completion (teacherService.create (Some client) payload)
      = Throw (ErrorObj (default "" (RecordResult.message record)))
      /\ completion (teacherService.update (Some client) id payload)
         = Throw (ErrorObj (default "" (RecordResult.message record)))
      /\ completion (teacherService.delete (Some client) id)
         = Throw (ErrorObj (default "" (RecordResult.message record))))
  /\ (first_message (rejected results) = None ->
      completion (teacherService.create (Some client) payload)
      = Return (teacherService.first_data (succeeded results))
      /\ completion (teacherService.update (Some client) id payload)
         = Return (teacherService.first_data (succeeded results))
      /\ completion (teacherService.delete (Some client) id)
         = Return (VBool (negb (bool_decide (succeeded results = []))))).
Proof.
  split.
  - intros record Hfirst.
    assert (Hrejected : rejected results <> [])
      by (intros Hnil; rewrite Hnil in Hfirst; discriminate Hfirst).
    conjs.
    all: unfold teacherService.create, teacherService.update, teacherService.delete;
         run_with Hreplies; rewrite Hsuccess, Hresults; eval_run;
         rewrite (length_pos _ Hrejected), forEach_throw_message, Hfirst;
         reflexivity.
  - intros Hnone. conjs.
    all: unfold teacherService.create, teacherService.update, teacherService.delete;
         run_with Hreplies; rewrite Hsuccess, Hresults; eval_run;
         destruct (0 <? length (rejected results))%nat; eval_run;
         rewrite ?forEach_throw_message, ?Hnone; try reflexivity.
    all: destruct (succeeded results); reflexivity.
Qed.

Lemma teacherService_results_outcome_witness :
  let results := [accepted (VRow ∅); refused None None] in
  let response := envelope true None VUndefined (Val results) in
  completion (teacherService.create (Some (answering response)) ∅) = Return (VRow ∅)
  /\ completion (teacherService.update (Some (answering response)) (JNum 7) ∅)
     = Return (VRow ∅)
  /\ completion (teacherService.delete (Some (answering response)) (JNum 7))
     = Return (VBool true).
Proof.
  intros results response.
  destruct (teacherService_results_outcome (answering response) response results
              (JNum 7) ∅) as (_ & H).
  - intros req. reflexivity.
  - reflexivity.
  - reflexivity.
  - apply H. reflexivity.
Defined.

(* ===================================================================== *)
(** ** Reads hand the transport's data on *)
(* ===================================================================== *)

(** [teacherService.getAll] and [getById] never look at the success flag:
    whenever the envelope carries rows (a record), they return them (it),
    also when the transport reports failure. *)
Theorem teacherService_reads_ignore_success (client : ApperClient)
    (response : Envelope.t) (id : JsVal)
    (Hreplies : forall req, client req = Resolve (Val response)) :
  (forall rows, Envelope.data response = VRows rows -> rows <> [] ->
                completion (teacherService.getAll (Some client)) = Return (VRows rows))
  /\ (forall row, Envelope.data response = VRow row ->
                  completion (teacherService.getById (Some client) id)
                  = Return (VRow row)).
Proof.
  split.
  - intros rows Hdata Hrows. unfold teacherService.getAll. run_with Hreplies.
    rewrite Hdata. eval_run. rewrite (length_pos _ Hrows). reflexivity.
  - intros row Hdata. unfold teacherService.getById. run_with Hreplies.
    rewrite Hdata. reflexivity.
Qed.

Lemma teacherService_reads_ignore_success_witness :
  let row : Obj := {[ "name_c" := JStr "Ada" ]} in
  let response := envelope false (Some "Quota exceeded") (VRows [row]) Undefined in
  completion (teacherService.getAll (Some (answering response))) = Return (VRows [row]).
Proof.
  intros row response.
  destruct (teacherService_reads_ignore_success (answering response) response
              (JNum 7)) as (H & _).
  - intros req. reflexivity.
  - apply (H [row]); [reflexivity | discriminate].
Defined.

(* ===================================================================== *)
(** ** What the outgoing record holds *)
(* ===================================================================== *)

(** Each writeable field of the record sent by [create] and [update] holds
    the payload's value for that field ([undefined] when the payload lacks
    it; for [ActivityService], the empty string in place of a falsy [Tags]),
    and [Id] holds [parseInt(id)] in [ActivityService.update] and the
    identifier unchanged in [teacherService.update]. *)
Theorem writes_send_payload_values (client : ApperClient) (payload : Obj)
    (id : JsVal) :
  (exists record,
      calls (trace (ActivityService.create (Some client) payload))
      = [createRecord "activity_c" [record]]
      /\ forall field, field ∈ ActivityService_writeable ->
                       record !! field = Some (ActivityService_sent payload field))
  /\ (exists record,
      calls (trace (ActivityService.update (Some client) id payload))
      = [updateRecord "activity_c" [record]]
      /\ record !! "Id" = Some (parseInt id)
      /\ forall field, field ∈ ActivityService_writeable ->
                       record !! field = Some (ActivityService_sent payload field))
  /\ (exists record,
      calls (trace (teacherService.create (Some client) payload))
      = [createRecord "teacher_c" [record]]
      /\ forall field, field ∈ teacherService_writeable ->
                       record !! field = Some (prop payload field))
  /\ (exists record,
      calls (trace (teacherService.update (Some client) id payload))
      = [updateRecord "teacher_c" [record]]
      /\ record !! "Id" = Some id
      /\ forall field, field ∈ teacherService_writeable ->
                       record !! field = Some (prop payload field)).
Proof.
  conjs.
  - eexists; split; [apply ActivityService_create_sends|].
    intros field Hfield. unfold ActivityService_writeable in Hfield.
    repeat (apply elem_of_cons in Hfield as [-> | Hfield]; [reflexivity|]).
    apply elem_of_nil in Hfield. contradiction.
  - eexists; split; [apply ActivityService_update_sends|]. split; [reflexivity|].
    intros field Hfield. unfold ActivityService_writeable in Hfield.
    repeat (apply elem_of_cons in Hfield as [-> | Hfield]; [reflexivity|]).
    apply elem_of_nil in Hfield. contradiction.
  - eexists; split; [apply teacherService_create_sends|].
    intros field Hfield. unfold teacherService_writeable in Hfield.
    repeat (apply elem_of_cons in Hfield as [-> | Hfield]; [reflexivity|]).
    apply elem_of_nil in Hfield. contradiction.
  - eexists; split; [apply teacherService_update_sends|]. split; [reflexivity|].
    intros field Hfield. unfold teacherService_writeable in Hfield.
    repeat (apply elem_of_cons in Hfield as [-> | Hfield]; [reflexivity|]).
    apply elem_of_nil in Hfield. contradiction.
Qed.


(* ===================================================================== *)
(** ** [parseInt] gives an integral identifier back *)
(* ===================================================================== *)










(* ===================================================================== *)
(** ** Tags *)
(* ===================================================================== *)

Example trim_sample :
  trim (of_bytes (map ascii_of_nat [226; 128; 131; 9; 97; 32; 98; 194; 160; 10]%nat))
  = "a b".
Proof. reflexivity. Qed.

Example formatTags_sample :
  Activities.formatTags (JStr " essay, ,english ,, due soon ")
  = [JStr "essay"; JStr "english"; JStr "due soon"].
Proof. reflexivity. Qed.

Lemma bytes_of_of_bytes (l : list ascii) : bytes_of (of_bytes l) = l.
Proof. apply String.list_ascii_of_string_of_list_ascii. Qed.

Lemma of_bytes_bytes_of (s : string) : of_bytes (bytes_of s) = s.
Proof. apply String.string_of_list_ascii_of_string. Qed.

Lemma bytes_of_app (a b : string) : bytes_of (a +:+ b) = bytes_of a ++ bytes_of b.
Proof.
  unfold bytes_of. induction a as [|c a IH]; [reflexivity|].
  change (String.list_ascii_of_string (String c a +:+ b))
    with (c :: String.list_ascii_of_string (a +:+ b)).
  rewrite IH. reflexivity.
Qed.

Lemma drop_prefix_Some (w s r : list ascii) :
  drop_prefix w s = Some r <-> s = w ++ r.
Proof.
  revert s. induction w as [|a w IH]; intros s; cbn.
  - split; [intros [= ->]; reflexivity | intros ->; reflexivity].
  - destruct s as [|b s]; [split; discriminate|].
    destruct (Ascii.eqb_spec a b) as [-> | Hne].
    + rewrite IH. split; [intros ->; reflexivity | intros [= ->]; reflexivity].
    + split; [discriminate|]. intros [= <- _]. contradiction.
Qed.

Lemma strip_any_Some (ws : list (list ascii)) (s r : list ascii) :
  strip_any ws s = Some r -> exists w, w ∈ ws /\ s = w ++ r.
Proof.
  induction ws as [|w ws IH]; cbn; [discriminate|].
  destruct (drop_prefix w s) as [r'|] eqn:Hw.
  - intros [= ->]. exists w. split; [left|]. apply drop_prefix_Some. exact Hw.
  - intros H. destruct (IH H) as (w' & Hin & Heq). exists w'. split; [right|]; assumption.
Qed.

Lemma strip_any_None (ws : list (list ascii)) (s : list ascii) :
  strip_any ws s = None <-> forall w r, w ∈ ws -> s <> w ++ r.
Proof.
  induction ws as [|w ws IH]; cbn.
  - split; [|reflexivity]. intros _ w r Hin. apply elem_of_nil in Hin. contradiction.
  - destruct (drop_prefix w s) as [r'|] eqn:Hw.
    + split; [discriminate|]. intros H. exfalso.
      apply (H w r'); [left|]. apply drop_prefix_Some. exact Hw.
    + rewrite IH. split.
      * intros H w' r Hin. apply elem_of_cons in Hin as [-> | Hin]; [|apply H; exact Hin].
        intros Heq. apply drop_prefix_Some in Heq. congruence.
      * intros H w' r Hin. apply H. right. exact Hin.
Qed.

(** What is left after stripping is a suffix of the input. *)
Lemma strip_all_suffix (ws : list (list ascii)) (fuel : nat) (s : list ascii) :
  exists pre, s = pre ++ strip_all ws fuel s.
Proof.
  revert s. induction fuel as [|fuel IH]; intros s; cbn; [exists []; reflexivity|].
  destruct (strip_any ws s) as [r|] eqn:Hs; [|exists []; reflexivity].
  destruct (strip_any_Some _ _ _ Hs) as (w & _ & ->).
  destruct (IH r) as (pre & Hpre). exists (w ++ pre).
  rewrite <- app_assoc, <- Hpre. reflexivity.
Qed.

(** With fuel for every element of the input, nothing is left to strip. *)
Lemma strip_all_done (ws : list (list ascii)) (fuel : nat) (s : list ascii) :
  (forall w, w ∈ ws -> w <> []) -> (length s <= fuel)%nat ->
  strip_any ws (strip_all ws fuel s) = None.
Proof.
  intros Hws. revert s. induction fuel as [|fuel IH]; intros s Hlen; cbn.
  - destruct s; [|cbn in Hlen; lia].
    apply strip_any_None. intros w r Hin Heq.
    symmetry in Heq. apply app_eq_nil in Heq as [-> _]. exact (Hws [] Hin eq_refl).
  - destruct (strip_any ws s) as [r|] eqn:Hs; [|exact Hs].
    destruct (strip_any_Some _ _ _ Hs) as (w & Hin & ->).
    apply IH. rewrite length_app in Hlen.
    specialize (Hws w Hin). destruct w; [contradiction|]. cbn in Hlen. lia.
Qed.

Lemma strip_all_fixed (ws : list (list ascii)) (fuel : nat) (s : list ascii) :
  strip_any ws s = None -> strip_all ws fuel s = s.
Proof. intros H. destruct fuel; cbn; [|rewrite H]; reflexivity. Qed.

Lemma white_space_not_empty (w : list ascii) : w ∈ white_space -> w <> [].
Proof.
  unfold white_space. cbn. intros Hin.
  repeat (apply elem_of_cons in Hin as [-> | Hin]; [discriminate|]).
  apply elem_of_nil in Hin. contradiction.
Qed.

Lemma reversed_white_space_not_empty (w : list ascii) :
  w ∈ map reverse white_space -> w <> [].
Proof.
  unfold white_space. cbn. intros Hin.
  repeat (apply elem_of_cons in Hin as [-> | Hin]; [discriminate|]).
  apply elem_of_nil in Hin. contradiction.
Qed.

Lemma strip_any_prefix (ws : list (list ascii)) (s t u : list ascii) :
  strip_any ws s = None -> s = t ++ u -> strip_any ws t = None.
Proof.
  rewrite !strip_any_None. intros Hs -> w r Hin ->.
  apply (Hs w (r ++ u) Hin). rewrite app_assoc. reflexivity.
Qed.

Lemma trimEnd_prefix (s : list ascii) : exists post, s = trimEnd_bytes s ++ post.
Proof.
  unfold trimEnd_bytes.
  destruct (strip_all_suffix (map reverse white_space) (length s) (reverse s))
    as (pre & Hpre).
  exists (reverse pre). rewrite <- reverse_app, <- Hpre, reverse_involutive.
  reflexivity.
Qed.

Lemma trimStart_suffix (s : list ascii) : exists pre, s = pre ++ trimStart_bytes s.
Proof. apply strip_all_suffix. Qed.

(** What [trim] returns has no white space left at either end. *)
Lemma trim_bytes_trimmed (s : list ascii) : trimmed (trimEnd_bytes (trimStart_bytes s)).
Proof.
  split.
  - destruct (trimEnd_prefix (trimStart_bytes s)) as (post & Hpost).
    apply (strip_any_prefix _ (trimStart_bytes s) _ post); [|exact Hpost].
    apply strip_all_done; [apply white_space_not_empty | reflexivity].
  - unfold trimEnd_bytes at 1. rewrite reverse_involutive.
    apply strip_all_done; [apply reversed_white_space_not_empty|].
    rewrite length_reverse. reflexivity.
Qed.

(** And [trim] leaves such a string as it is. *)
Lemma trimmed_fixed (s : list ascii) :
  trimmed s -> trimEnd_bytes (trimStart_bytes s) = s.
Proof.
  intros [Hlead Htrail].
  unfold trimStart_bytes. rewrite (strip_all_fixed _ _ _ Hlead).
  unfold trimEnd_bytes. rewrite (strip_all_fixed _ _ _ Htrail).
  apply reverse_involutive.
Qed.

Lemma trim_idempotent (s : string) : trim (trim s) = trim s.
Proof.
  unfold trim. rewrite bytes_of_of_bytes, trimmed_fixed; [reflexivity|].
  apply trim_bytes_trimmed.
Qed.

(** [trim] only removes: every byte it returns was in the input. *)
Lemma trim_bytes_subset (s : list ascii) (c : ascii) :
  c ∈ trimEnd_bytes (trimStart_bytes s) -> c ∈ s.
Proof.
  intros Hc.
  destruct (trimEnd_prefix (trimStart_bytes s)) as (post & Hpost).
  destruct (trimStart_suffix s) as (pre & Hpre).
  rewrite Hpre, Hpost. rewrite !elem_of_app. right. left. exact Hc.
Qed.

Lemma split_bytes_not_nil (sep : ascii) (s : list ascii) : split_bytes sep s <> [].
Proof.
  induction s as [|c s IH]; cbn; [discriminate|].
  destruct (Ascii.eqb c sep); [discriminate|].
  destruct (split_bytes sep s); discriminate.
Qed.

(** No piece of a split holds the separator. *)
Lemma split_bytes_no_sep (sep : ascii) (s piece : list ascii) :
  piece ∈ split_bytes sep s -> sep ∉ piece.
Proof.
  revert piece. induction s as [|c s IH]; intros piece; cbn.
  - intros Hin. apply list_elem_of_singleton in Hin as ->. apply not_elem_of_nil.
  - destruct (Ascii.eqb_spec c sep) as [-> | Hne].
    + intros Hin. apply elem_of_cons in Hin as [-> | Hin];
        [apply not_elem_of_nil | apply IH; exact Hin].
    + destruct (split_bytes sep s) as [|first pieces] eqn:Hsplit.
      * intros Hin. apply list_elem_of_singleton in Hin as ->.
        intros Hsep. apply list_elem_of_singleton in Hsep. congruence.
      * intros Hin. apply elem_of_cons in Hin as [-> | Hin].
        -- intros Hsep. apply elem_of_cons in Hsep as [-> | Hsep]; [congruence|].
           apply (IH first); [left | exact Hsep].
        -- apply IH. right. exact Hin.
Qed.

Lemma split_bytes_single (sep : ascii) (piece : list ascii) :
  sep ∉ piece -> split_bytes sep piece = [piece].
Proof.
  induction piece as [|c piece IH]; [reflexivity|]. intros Hsep. cbn.
  apply not_elem_of_cons in Hsep as [Hc Hpiece].
  destruct (Ascii.eqb_spec c sep) as [-> | _]; [congruence|].
  rewrite (IH Hpiece). reflexivity.
Qed.

Lemma split_bytes_app (sep : ascii) (piece rest : list ascii) :
  sep ∉ piece ->
  split_bytes sep (piece ++ sep :: rest) = piece :: split_bytes sep rest.
Proof.
  induction piece as [|c piece IH]; intros Hsep; cbn.
  - rewrite Ascii.eqb_refl. reflexivity.
  - apply not_elem_of_cons in Hsep as [Hc Hpiece].
    destruct (Ascii.eqb_spec c sep) as [-> | _]; [congruence|].
    rewrite (IH Hpiece). reflexivity.
Qed.

(** Splitting what [join] made of comma-free pieces gives the pieces back. *)
Lemma split_concat (tags : list string) :
  tags <> [] ->
  Forall (fun tag => ","%char ∉ bytes_of tag) tags ->
  split "," (String.concat "," tags) = tags.
Proof.
  unfold split. intros Hne Hclean.
  induction Hclean as [|tag tags Htag Htags IH]; [contradiction|].
  destruct tags as [|next tags].
  - cbn [String.concat]. rewrite split_bytes_single by exact Htag.
    cbn. rewrite of_bytes_bytes_of. reflexivity.
  - change (String.concat "," (tag :: next :: tags))
      with (tag +:+ "," +:+ String.concat "," (next :: tags)).
    rewrite !bytes_of_app. change (bytes_of ",") with [","%char].
    cbn [app]. rewrite split_bytes_app by exact Htag.
    cbn [map]. rewrite of_bytes_bytes_of. f_equal. apply IH. discriminate.
Qed.

(** Whatever string of tags an activity carries, every tag [formatTags]
    shows is a non-empty string with no white space around it and no comma
    in it. *)
Theorem formatTags_shows_clean_tags (s : string) (v : JsVal)
    (Hshown : v ∈ Activities.formatTags (JStr s)) :
  exists tag, v = JStr tag /\ clean_tag tag.
Proof.
  unfold Activities.formatTags in Hshown.
  destruct (negb (truthy (JStr s))); [apply elem_of_nil in Hshown; contradiction|].
  apply list_elem_of_fmap in Hshown as (tag & -> & Htag).
  exists tag. split; [reflexivity|].
  apply list_elem_of_In, filter_In in Htag as [Htag Hlength].
  apply list_elem_of_In, list_elem_of_fmap in Htag as (piece & -> & Hpiece).
  unfold split in Hpiece. apply list_elem_of_fmap in Hpiece as (p & -> & Hp).
  split; [|split].
  - intros Hempty. rewrite Hempty in Hlength. discriminate Hlength.
  - apply trim_idempotent.
  - unfold trim. rewrite !bytes_of_of_bytes. intros Hcomma.
    apply trim_bytes_subset in Hcomma.
    exact (split_bytes_no_sep _ _ _ Hp Hcomma).
Qed.

Lemma formatTags_shows_clean_tags_witness :
  exists tag, JStr "english" = JStr tag /\ clean_tag tag.
Proof.
  apply (formatTags_shows_clean_tags " essay, ,english ,, due soon " (JStr "english")).
  vm_compute. right. left.
Defined.

(** Tags written out with commas come back as they were: for clean tags,
    [formatTags] of their comma-joined string is the list of the tags, in
    order. *)
Theorem formatTags_of_joined_tags (tags : list string)
    (Hclean : Forall clean_tag tags) :
  Activities.formatTags (JStr (String.concat "," tags)) = map JStr tags.
Proof.
  destruct tags as [|tag rest]; [reflexivity|].
  unfold Activities.formatTags.
  assert (Htruthy : truthy (JStr (String.concat "," (tag :: rest))) = true).
  { apply Forall_cons in Hclean as [(Hne & _) _].
    destruct tag; [contradiction|]. destruct rest; reflexivity. }
  rewrite Htruthy. cbn [negb]. f_equal.
  rewrite split_concat.
  - clear Htruthy. generalize dependent (tag :: rest). intros ts Hclean.
    induction Hclean as [|t ts (Hne & Htrim & _) _ IH]; [reflexivity|].
    cbn [map List.filter]. rewrite Htrim.
    destruct t; [contradiction|]. cbn [String.length Nat.ltb Nat.leb].
    f_equal. exact IH.
  - discriminate.
  - eapply Forall_impl; [exact Hclean|]. intros t (_ & _ & Hcomma). exact Hcomma.
Qed.

Lemma formatTags_of_joined_tags_witness :
  Activities.formatTags (JStr (String.concat "," ["essay"; "due soon"]))
  = [JStr "essay"; JStr "due soon"].
Proof.
  apply (formatTags_of_joined_tags ["essay"; "due soon"]).
  repeat constructor; try discriminate; vm_compute;
    intros H; repeat (apply elem_of_cons in H as [H | H]; [discriminate H|]);
    apply elem_of_nil in H; exact H.
Defined.

(* ===================================================================== *)
(** ** The Teachers page *)
(* ===================================================================== *)

Lemma service_events_app (a b : list UiEvent) :
  service_events (a ++ b) = service_events a ++ service_events b.
Proof.
  induction a as [|e a IH]; [reflexivity|].
  destruct e; cbn; rewrite ?IH; reflexivity.
Qed.

Lemma service_events_lift (tr : list Event) : service_events (map Ev tr) = tr.
Proof. induction tr as [|e tr IH]; [reflexivity|]. cbn. rewrite IH. reflexivity. Qed.

Lemma setters_app (a b : list UiEvent) : setters (a ++ b) = setters a ++ setters b.
Proof. apply List.filter_app. Qed.

Lemma setters_lift (tr : list Event) : setters (map Ev tr) = [].
Proof. induction tr as [|e tr IH]; [reflexivity|]. exact IH. Qed.

(** Bring the projections of a trace built with [++] to the traces of its
    parts. *)
Ltac ui_simpl :=
  unfold ui_notifications, ui_calls;
  repeat first
    [ rewrite service_events_app
    | rewrite service_events_lift
    | rewrite setters_app
    | rewrite setters_lift
    | rewrite notifications_app
    | rewrite calls_app
    | rewrite app_nil_r
    | progress cbn [service_events setters List.filter is_setter notifications
                    calls app] ].

(** A form with a required field left empty is not submitted:
    [handleSubmit] raises the one notification that asks for the fields and
    does nothing else, neither a service call nor a state change. *)
Theorem Teachers_handleSubmit_requires_fields (sdk : option ApperClient)
    (formData : Obj) (editingTeacher : Value)
    (Hempty : truthy (prop formData "name_c") = false
              \/ truthy (prop formData "email_c") = false
              \/ truthy (prop formData "department_c") = false) :
  Teachers.handleSubmit sdk formData editingTeacher
  = ([PreventDefault; Ev (ToastError (Some "Please fill in all required fields"))],
     Return tt).
Proof.
  unfold Teachers.handleSubmit.
  destruct Hempty as [H | [H | H]]; rewrite H;
    repeat match goal with |- context [truthy ?v] => destruct (truthy v) end;
    reflexivity.
Qed.

Lemma Teachers_handleSubmit_requires_fields_witness :
  Teachers.handleSubmit None
    (list_to_map [("name_c", JStr "Ada"); ("email_c", JStr "");
                  ("department_c", JStr "Maths")]) VNull
  = ([PreventDefault; Ev (ToastError (Some "Please fill in all required fields"))],
     Return tt).
Proof.
  apply Teachers_handleSubmit_requires_fields. right. left. reflexivity.
Defined.

(** A filled-in form is submitted, and [handleSubmit] always completes and
    raises exactly one notification.  If the service returns, whatever it
    returns ([undefined] included), the page reports success, hands the
    returned value to [setTeachers] (appended when creating, in place of the
    edited row when editing) and closes the modal with a blank form.  If the
    service throws, the page reports the failure and changes no state. *)
Theorem Teachers_handleSubmit_outcome (sdk : option ApperClient)
    (formData : Obj) (editingTeacher : Value)
    (Hname : truthy (prop formData "name_c") = true)
    (Hemail : truthy (prop formData "email_c") = true)
    (Hdepartment : truthy (prop formData "department_c") = true) :
  let run := Teachers.handleSubmit sdk formData editingTeacher in
  run.2 = Return tt
  /\ (truthy_value editingTeacher = false ->
      match completion (teacherService.create sdk formData) with
      | Return newTeacher =>
          ui_notifications run.1 = [NSuccess "Teacher added successfully"]
          /\ setters run.1
             = [SetTeachers (Append newTeacher); SetShowModal false;
                SetEditingTeacher VNull; SetFormData Teachers.blank]
      | Throw _ =>
          ui_notifications run.1 = [NError (Some "Failed to save teacher")]
          /\ setters run.1 = []
      end)
  /\ (forall teacher, editingTeacher = VRow teacher ->
      match completion (teacherService.update sdk (prop teacher "Id") formData) with
      | Return updatedTeacher =>
          ui_notifications run.1 = [NSuccess "Teacher updated successfully"]
          /\ setters run.1
             = [SetTeachers (MapReplace editingTeacher updatedTeacher);
                SetShowModal false; SetEditingTeacher VNull;
                SetFormData Teachers.blank]
      | Throw _ =>
          ui_notifications run.1 = [NError (Some "Failed to save teacher")]
          /\ setters run.1 = []
      end).
Proof.
  intros run. subst run. unfold Teachers.handleSubmit.
  rewrite Hname, Hemail, Hdepartment. cbn [negb orb].
  split; [|split].
  - destruct editingTeacher as [| |b|teacher|rows]; cbn [truthy_value].
    3: destruct b.
    all: cbn [field lift trace completion mbind Ui_bind Eff_bind mret Eff_ret
              fst snd map app].
    all: match goal with
         | |- context [teacherService.create ?a ?b] =>
             destruct (teacherService.create a b) as [tr [v|e]]
         | |- context [teacherService.update ?a ?b ?c] =>
             destruct (teacherService.update a b c) as [tr [v|e]]
         end; reflexivity.
  - intros Hcreating. rewrite Hcreating.
    pose proof (teacherService_silent sdk JUndefined formData) as (_ & _ & Hsilent & _).
    destruct (teacherService.create sdk formData) as [tr [newTeacher|e]];
      cbn in Hsilent |- *; ui_simpl; rewrite Hsilent; split; reflexivity.
  - intros teacher ->. cbn [truthy_value field].
    pose proof (teacherService_silent sdk (prop teacher "Id") formData)
      as (_ & _ & _ & Hsilent & _).
    cbn [lift trace completion mbind Ui_bind Eff_bind mret Eff_ret fst snd map app].
    destruct (teacherService.update sdk (prop teacher "Id") formData)
      as [tr [updatedTeacher|e]];
      cbn in Hsilent |- *; ui_simpl; rewrite Hsilent; split; reflexivity.
Qed.

Lemma Teachers_handleSubmit_outcome_witness :
  let response :=
    envelope true None VUndefined (Val [refused None (Some [email_required])]) in
  let formData : Obj :=
    list_to_map [("name_c", JStr "Ada"); ("email_c", JStr "ada");
                 ("department_c", JStr "Maths")] in
  let run := Teachers.handleSubmit (Some (answering response)) formData VNull in
  ui_notifications run.1 = [NSuccess "Teacher added successfully"]
  /\ setters run.1
     = [SetTeachers (Append VUndefined); SetShowModal false;
        SetEditingTeacher VNull; SetFormData Teachers.blank].
Proof.
  intros response formData run.
  destruct (Teachers_handleSubmit_outcome (Some (answering response)) formData VNull)
    as (_ & H & _).
  - reflexivity.
  - reflexivity.
  - reflexivity.
  - apply (H eq_refl).
Defined.

(** Deleting a teacher.  Until the user confirms, nothing happens.  Once
    confirmed, [handleDelete] completes and raises exactly one notification:
    if [teacherService.delete] returns, whatever it returns ([false] and
    [undefined] included), the page reports success and asks
    [setTeachers] to drop the rows with that identifier; if it throws, the
    page reports the failure and changes no state. *)
Theorem Teachers_handleDelete_outcome (sdk : option ApperClient)
    (confirmed : bool) (teacherId teacherName : JsVal) :
  let run := Teachers.handleDelete sdk confirmed teacherId teacherName in
  run.2 = Return tt
  /\ (confirmed = false ->
      ui_calls run.1 = [] /\ ui_notifications run.1 = [] /\ setters run.1 = [])
  /\ (confirmed = true ->
      match completion (teacherService.delete sdk teacherId) with
      | Return _ =>
          ui_notifications run.1 = [NSuccess "Teacher deleted successfully"]
          /\ setters run.1 = [SetTeachers (Remove teacherId)]
      | Throw _ =>
          ui_notifications run.1 = [NError (Some "Failed to delete teacher")]
          /\ setters run.1 = []
      end).
Proof.
  intros run. subst run. unfold Teachers.handleDelete.
  pose proof (teacherService_silent sdk teacherId ∅) as (_ & _ & _ & _ & Hsilent).
  destruct confirmed; cbn [negb].
  - destruct (teacherService.delete sdk teacherId) as [tr [v|e]];
      cbn in Hsilent |- *; ui_simpl; rewrite ?Hsilent.
    + split; [reflexivity|]. split; [discriminate|]. intros _. split; reflexivity.
    + split; [reflexivity|]. split; [discriminate|]. intros _. split; reflexivity.
  - split; [reflexivity|]. split; [|discriminate]. intros _. repeat split.
Qed.

(** The updaters of [setTeachers] on an array of rows: [Append] adds the
    value at the end; [Remove] keeps, in order, exactly the rows whose [Id]
    differs from the identifier; [MapReplace] puts the updated value in
    place of each row with the edited row's [Id] and leaves the others.
    (The identifiers compared are not arrays, so that [===] is exact.) *)
Theorem Teachers_updaters_on_rows (rows : list Obj) (v : Value)
    (teacherId : JsVal) (editingTeacher : Obj)
    (Hid : is_array teacherId = false)
    (Hediting : is_array (prop editingTeacher "Id") = false) :
  Teachers.apply_update (Append v) (Items (map VRow rows))
  = Return (Items (map VRow rows ++ [v]))
  /\ Teachers.apply_update (Remove teacherId) (Items (map VRow rows))
     = Return (Items (map VRow
                        (List.filter
                           (fun row => negb (strict_eq (prop row "Id") teacherId))
                           rows)))
  /\ Teachers.apply_update (MapReplace (VRow editingTeacher) v) (Items (map VRow rows))
     = Return (Items (map (fun row =>
                             if strict_eq (prop row "Id") (prop editingTeacher "Id")
                             then v else VRow row)
                          rows)).
Proof.
  conjs; [reflexivity| |].
  - unfold Teachers.apply_update, Teachers.filter_listing.
    assert (Hfilter :
      filterM (fun t => Id ← field t "Id"; mret (negb (strict_eq Id teacherId)))
              (map VRow rows)
      = ([], Return (map VRow
                       (List.filter
                          (fun row => negb (strict_eq (prop row "Id") teacherId))
                          rows)))).
    { induction rows as [|row rows IH]; [reflexivity|].
      cbn [map filterM List.filter]. rewrite IH. cbn.
      destruct (strict_eq (prop row "Id") teacherId); reflexivity. }
    rewrite Hfilter. reflexivity.
  - unfold Teachers.apply_update.
    assert (Hmap :
      mapM (fun t => Id ← field t "Id";
                     editingId ← field (VRow editingTeacher) "Id";
                     mret (if strict_eq Id editingId then v else t))
           (map VRow rows)
      = ([], Return (map (fun row =>
                            if strict_eq (prop row "Id") (prop editingTeacher "Id")
                            then v else VRow row) rows))).
    { induction rows as [|row rows IH]; [reflexivity|].
      cbn [map mapM]. rewrite IH. reflexivity. }
    rewrite Hmap. reflexivity.
Qed.

Lemma Teachers_updaters_on_rows_witness :
  let ada : Obj := list_to_map [("Id", JNum 1); ("name_c", JStr "Ada")] in
  let bob : Obj := list_to_map [("Id", JNum 2); ("name_c", JStr "Bob")] in
  Teachers.apply_update (Remove (JNum 1)) (Items [VRow ada; VRow bob])
  = Return (Items [VRow bob]).
Proof.
  intros ada bob.
  destruct (Teachers_updaters_on_rows [ada; bob] VNull (JNum 1) ada) as (_ & H & _).
  - reflexivity.
  - reflexivity.
  - exact H.
Defined.

(** Once the list holds an [undefined] or [null] entry (as after a create
    whose service call returned [undefined]), the updaters that read [Id]
    throw a [TypeError]: neither a delete nor an edit can be applied to the
    list any more. *)
Theorem Teachers_updaters_fail_on_nullish_entry (items : list Value)
    (entry : Value) (teacherId : JsVal) (editingTeacher updatedTeacher : Value)
    (Hentry : entry ∈ items)
    (Hnullish : entry = VUndefined \/ entry = VNull) :
  Teachers.apply_update (Remove teacherId) (Items items) = Throw TypeErrorObj
  /\ Teachers.apply_update (MapReplace editingTeacher updatedTeacher) (Items items)
     = Throw TypeErrorObj.
Proof.
  unfold Teachers.apply_update, Teachers.filter_listing. split.
  - assert (Hthrows :
      filterM (fun t => Id ← field t "Id"; mret (negb (strict_eq Id teacherId))) items
      = ([], Throw TypeErrorObj)).
    { induction items as [|t items IH]; [apply elem_of_nil in Hentry; contradiction|].
      apply elem_of_cons in Hentry as [<- | Hentry].
      - destruct Hnullish as [-> | ->]; reflexivity.
      - cbn [filterM]. rewrite (IH Hentry). destruct t as [| |b|row|rows]; reflexivity. }
    rewrite Hthrows. reflexivity.
  - assert (Hthrows :
      mapM (fun t => Id ← field t "Id";
                     editingId ← field editingTeacher "Id";
                     mret (if strict_eq Id editingId then updatedTeacher else t))
           items
      = ([], Throw TypeErrorObj)).
    { induction items as [|t items IH]; [apply elem_of_nil in Hentry; contradiction|].
      apply elem_of_cons in Hentry as [<- | Hentry].
      - destruct Hnullish as [-> | ->]; reflexivity.
      - cbn [mapM]. rewrite (IH Hentry).
        destruct t as [| |b|row|rows]; try reflexivity;
          destruct editingTeacher as [| |b'|row'|rows']; reflexivity. }
    rewrite Hthrows. reflexivity.
Qed.

Lemma Teachers_updaters_fail_on_nullish_entry_witness :
  Teachers.apply_update (Remove (JNum 7)) (Items [VRow ∅; VUndefined])
  = Throw TypeErrorObj
  /\ Teachers.apply_update (MapReplace (VRow ∅) (VRow ∅)) (Items [VRow ∅; VUndefined])
     = Throw TypeErrorObj.
Proof.
  apply (Teachers_updaters_fail_on_nullish_entry [VRow ∅; VUndefined] VUndefined).
  - right. left.
  - left. reflexivity.
Defined.

(** Loading the teachers always completes and always ends by switching the
    loading state off.  If [teacherService.getAll] returns, its value
    becomes the list and the error is cleared, with no notification; if it
    throws, the error text is set, the list is left alone, and exactly one
    notification is raised. *)
Theorem Teachers_loadTeachers_outcome (sdk : option ApperClient) :
  let run := Teachers.loadTeachers sdk in
  run.2 = Return tt
  /\ last (setters run.1) = Some (SetLoading false)
  /\ match completion (teacherService.getAll sdk) with
     | Return data =>
         setters run.1
         = [SetLoading true; SetTeachers (Replace data); SetError None;
            SetLoading false]
         /\ ui_notifications run.1 = []
     | Throw _ =>
         setters run.1
         = [SetLoading true; SetError (Some (Text "Failed to load teachers"));
            SetLoading false]
         /\ ui_notifications run.1 = [NError (Some "Failed to load teachers")]
     end.
Proof.
  intros run. subst run. unfold Teachers.loadTeachers.
  pose proof (teacherService_silent sdk JUndefined ∅) as (Hsilent & _).
  destruct (teacherService.getAll sdk) as [tr [data|e]];
    cbn in Hsilent |- *; ui_simpl; rewrite ?Hsilent; repeat split.
Qed.

(** A listing that the transport reports as failed, with no rows, reaches
    the Teachers page as an empty list: no error is set and no notification
    is raised. *)
Theorem Teachers_load_failure_unnoticed (client : ApperClient)
    (response : Envelope.t)
    (Hreplies : forall req, client req = Resolve (Val response))
    (Hfailure : Envelope.success response = false)
    (Hdata : Envelope.data response = VUndefined
             \/ Envelope.data response = VNull
             \/ Envelope.data response = VRows []) :
  let run := Teachers.loadTeachers (Some client) in
  setters run.1
  = [SetLoading true; SetTeachers (Replace (VRows [])); SetError None;
     SetLoading false]
  /\ ui_notifications run.1 = []
  /\ run.2 = Return tt.
Proof.
  intros run. subst run. unfold Teachers.loadTeachers.
  assert (Hrun : teacherService.getAll (Some client)
                 = (trace (teacherService.getAll (Some client)), Return (VRows []))).
  { unfold teacherService.getAll. run_with Hreplies.
    destruct Hdata as [-> | [-> | ->]]; reflexivity. }
  pose proof (teacherService_silent (Some client) JUndefined ∅) as (Hsilent & _).
  rewrite Hrun in Hsilent |- *. cbn in Hsilent |- *. ui_simpl. rewrite Hsilent.
  repeat split.
Qed.

Lemma Teachers_load_failure_unnoticed_witness :
  let response := envelope false (Some "Service unavailable") VUndefined Undefined in
  let run := Teachers.loadTeachers (Some (answering response)) in
  setters run.1
  = [SetLoading true; SetTeachers (Replace (VRows [])); SetError None;
     SetLoading false]
  /\ ui_notifications run.1 = []
  /\ run.2 = Return tt.
Proof.
  intros response run.
  apply (Teachers_load_failure_unnoticed (answering response) response).
  - intros req. reflexivity.
  - reflexivity.
  - left. reflexivity.
Defined.

(* ===================================================================== *)
(** ** Filtering the lists *)
(* ===================================================================== *)

Lemma strict_eq_string (v : JsVal) (s : string) :
  strict_eq v (JStr s) = true <-> v = JStr s.
Proof.
  destruct v; cbn; try (split; discriminate).
  rewrite String.eqb_eq. split; [intros ->; reflexivity | intros [= ->]; reflexivity].
Qed.

(** A filter whose callback neither throws nor acts is the plain filter. *)
Lemma filterM_pure {A} (f : A -> Eff bool) (g : A -> bool) (l : list A) :
  (forall x, f x = ([], Return (g x))) ->
  filterM f l = ([], Return (List.filter g l)).
Proof.
  intros Hf. induction l as [|x l IH]; [reflexivity|].
  cbn [filterM List.filter]. rewrite Hf, IH. cbn. destruct (g x); reflexivity.
Qed.

(** What a filter returns was in the list and passed the callback. *)
Lemma filterM_sound {A} (f : A -> Eff bool) (l kept : list A) (tr : list Event) :
  filterM f l = (tr, Return kept) ->
  forall x, x ∈ kept -> x ∈ l /\ completion (f x) = Return true.
Proof.
  revert kept tr. induction l as [|y l IH]; intros kept tr; cbn [filterM].
  - intros [= _ <-] x Hx. apply elem_of_nil in Hx. contradiction.
  - destruct (f y) as [t1 [keep|e]] eqn:Hy; [|discriminate].
    destruct (filterM f l) as [t2 [kept'|e]] eqn:Hl; [|discriminate].
    cbn. intros [= _ <-] x Hx.
    destruct keep.
    + apply elem_of_cons in Hx as [-> | Hx].
      * split; [left | rewrite Hy; reflexivity].
      * destruct (IH _ _ eq_refl x Hx) as [Hin Hkeep]. split; [right|]; assumption.
    + destruct (IH _ _ eq_refl x Hx) as [Hin Hkeep]. split; [right|]; assumption.
Qed.

(** With no search term and both filters on "all", the Activities page shows
    every activity, in order, whatever the rows hold. *)
Theorem Activities_shows_all_without_filters (toLowerCase : string -> string)
    (activities : list Obj) :
  Activities.filteredActivities toLowerCase activities "" "all" "all"
  = ([], Return activities).
Proof.
  unfold Activities.filteredActivities.
  rewrite (filterM_pure _ (fun _ => true)); [|reflexivity].
  f_equal. f_equal. induction activities as [|a l IH]; [reflexivity|].
  cbn. rewrite IH. reflexivity.
Qed.

(** Every activity the page shows is one of the activities, has the chosen
    status and priority (unless the filter is "all"), and, when a search
    term is set, holds it, case folded, in its name, subject or
    description. *)
Theorem Activities_filter_sound (toLowerCase : string -> string)
    (activities shown : list Obj) (searchTerm statusFilter priorityFilter : string)
    (Hshown : completion (Activities.filteredActivities toLowerCase activities
                            searchTerm statusFilter priorityFilter)
              = Return shown) :
  forall activity, activity ∈ shown ->
    activity ∈ activities
    /\ (statusFilter = "all" \/ prop activity "status_c" = JStr statusFilter)
    /\ (priorityFilter = "all" \/ prop activity "priority_c" = JStr priorityFilter)
    /\ (searchTerm = ""
        \/ exists name text,
            name ∈ ["Name"; "subject_c"; "description_c"]
            /\ prop activity name = JStr text
            /\ includes (toLowerCase text) (toLowerCase searchTerm) = true).
Proof.
  intros activity Hin. unfold Activities.filteredActivities in Hshown.
  match type of Hshown with
  | completion (filterM ?f ?l) = _ =>
      destruct (filterM f l) as [tr c] eqn:Hrun; cbn in Hshown; subst c;
      destruct (filterM_sound f l shown tr Hrun activity Hin) as [Hmember Hkept]
  end.
  split; [exact Hmember|]. cbn beta in Hkept.
  assert (Hmatches : forall v b,
             completion (Activities.matches toLowerCase searchTerm v) = Return b ->
             b = true ->
             exists text, v = JStr text
                          /\ includes (toLowerCase text) (toLowerCase searchTerm) = true).
  { intros v b Hv ->. destruct v; cbn in Hv; try discriminate Hv.
    injection Hv as Hv. eexists. split; [reflexivity | exact Hv]. }
  destruct (String.eqb_spec searchTerm "") as [Hterm | Hterm].
  - cbn in Hkept. injection Hkept as Hkept.
    apply andb_true_iff in Hkept as [Hstatus Hpriority].
    apply orb_true_iff in Hstatus, Hpriority.
    rewrite String.eqb_eq, strict_eq_string in Hstatus, Hpriority.
    repeat split; [exact Hstatus | exact Hpriority | left; exact Hterm].
  - destruct (Activities.matches toLowerCase searchTerm (prop activity "Name"))
      as [t1 [b1|e1]] eqn:H1; [|discriminate Hkept].
    assert (Hfilters : forall b : bool,
               b && (String.eqb statusFilter "all"
                     || strict_eq (prop activity "status_c") (JStr statusFilter))
                 && (String.eqb priorityFilter "all"
                     || strict_eq (prop activity "priority_c") (JStr priorityFilter))
               = true ->
               b = true
               /\ (statusFilter = "all" \/ prop activity "status_c" = JStr statusFilter)
               /\ (priorityFilter = "all"
                   \/ prop activity "priority_c" = JStr priorityFilter)).
    { intros b Hb. apply andb_true_iff in Hb as [Hb Hpriority].
      apply andb_true_iff in Hb as [Hb Hstatus].
      apply orb_true_iff in Hstatus, Hpriority.
      rewrite String.eqb_eq, strict_eq_string in Hstatus, Hpriority.
      repeat split; assumption. }
    destruct b1.
    + cbn in Hkept. injection Hkept as Hkept.
      destruct (Hfilters true Hkept) as (_ & Hstatus & Hpriority).
      destruct (Hmatches _ true ltac:(rewrite H1; reflexivity) eq_refl)
        as (text & Htext & Hincl).
      repeat split; [exact Hstatus | exact Hpriority|].
      right. exists "Name", text. repeat split; [left | exact Htext | exact Hincl].
    + destruct (Activities.matches toLowerCase searchTerm (prop activity "subject_c"))
        as [t2 [b2|e2]] eqn:H2; [|discriminate Hkept].
      destruct b2.
      * cbn in Hkept. injection Hkept as Hkept.
        destruct (Hfilters true Hkept) as (_ & Hstatus & Hpriority).
        destruct (Hmatches _ true ltac:(rewrite H2; reflexivity) eq_refl)
          as (text & Htext & Hincl).
        repeat split; [exact Hstatus | exact Hpriority|].
        right. exists "subject_c", text.
        repeat split; [right; left | exact Htext | exact Hincl].
      * destruct (Activities.matches toLowerCase searchTerm
                    (prop activity "description_c")) as [t3 [b3|e3]] eqn:H3;
          [|discriminate Hkept].
        cbn in Hkept. injection Hkept as Hkept.
        destruct (Hfilters b3 Hkept) as (-> & Hstatus & Hpriority).
        destruct (Hmatches _ true ltac:(rewrite H3; reflexivity) eq_refl)
          as (text & Htext & Hincl).
        repeat split; [exact Hstatus | exact Hpriority|].
        right. exists "description_c", text.
        repeat split; [right; right; left | exact Htext | exact Hincl].
Qed.

Lemma Activities_filter_sound_witness :
  let essay : Obj :=
    list_to_map [("Name", JStr "essay"); ("status_c", JStr "Completed");
                 ("priority_c", JStr "High")] in
  let quiz : Obj :=
    list_to_map [("Name", JStr "quiz"); ("status_c", JStr "Completed");
                 ("priority_c", JStr "Low")] in
  essay ∈ [essay; quiz]
  /\ ("Completed" = "all" \/ prop essay "status_c" = JStr "Completed")
  /\ ("all" = "all" \/ prop essay "priority_c" = JStr "all")
  /\ ("ss" = ""
      \/ exists name text,
          name ∈ ["Name"; "subject_c"; "description_c"]
          /\ prop essay name = JStr text
          /\ includes text "ss" = true).
Proof.
  intros essay quiz.
  apply (Activities_filter_sound (fun s => s) [essay; quiz] [essay]
           "ss" "Completed" "all").
  - vm_compute. reflexivity.
  - left.
Defined.

(** A search term meets an activity whose name is neither a string nor
    absent (a number, say): the filter throws a [TypeError] instead of
    returning a list. *)
Theorem Activities_search_fails_on_non_text_name (toLowerCase : string -> string)
    (activities : list Obj) (activity : Obj)
    (searchTerm statusFilter priorityFilter : string)
    (Hterm : searchTerm <> "")
    (Hmember : activity ∈ activities)
    (Hname : match prop activity "Name" with
             | JBool _ | JNum _ | JNaN | JArr _ => True
             | _ => False
             end) :
  completion (Activities.filteredActivities toLowerCase activities searchTerm
                statusFilter priorityFilter)
  = Throw TypeErrorObj.
Proof.
  unfold Activities.filteredActivities.
  apply String.eqb_neq in Hterm. rewrite Hterm.
  induction activities as [|a l IH]; [apply elem_of_nil in Hmember; contradiction|].
  cbn [filterM].
  assert (Hstep : forall v : JsVal,
             (exists b, Activities.matches toLowerCase searchTerm v = ([], Return b))
             \/ Activities.matches toLowerCase searchTerm v = ([], Throw TypeErrorObj)).
  { intros v. destruct v; cbn; eauto. }
  apply elem_of_cons in Hmember as [<- | Hmember].
  - destruct (prop activity "Name"); try contradiction; reflexivity.
  - specialize (IH Hmember).
    match goal with
    | |- context [filterM ?f l] =>
        destruct (filterM f l) as [tr c]; cbn in IH; subst c
    end.
    destruct (Hstep (prop a "Name")) as [[b1 H1] | H1]; rewrite H1; [|reflexivity].
    destruct b1; [reflexivity|].
    destruct (Hstep (prop a "subject_c")) as [[b2 H2] | H2]; rewrite H2; [|reflexivity].
    destruct b2; [reflexivity|].
    destruct (Hstep (prop a "description_c")) as [[b3 H3] | H3]; rewrite H3;
      reflexivity.
Qed.

Lemma Activities_search_fails_on_non_text_name_witness :
  completion (Activities.filteredActivities (fun s => s)
                [list_to_map [("Name", JStr "essay")];
                 list_to_map [("Name", JNum 2024)]] "ess" "all" "all")
  = Throw TypeErrorObj.
Proof.
  apply (Activities_search_fails_on_non_text_name (fun s => s) _
           (list_to_map [("Name", JNum 2024)])).
  - discriminate.
  - right. left.
  - vm_compute. exact I.
Defined.

(** The Teachers page's filter.  With no query and the department on "all"
    it shows the stored value as it is.  With no query and a department
    chosen it shows, of an array of rows, exactly those whose
    [department_c] is that department, in order. *)
Theorem Teachers_filter_by_department (toLowerCase : string -> string)
    (teachers : Listing) (rows : list Obj) (filterDepartment : string) :
  Teachers.filterTeachers toLowerCase teachers "" "all"
  = ([SetFilteredTeachers teachers], Return tt)
  /\ (filterDepartment <> "all" ->
      Teachers.filterTeachers toLowerCase (Items (map VRow rows)) "" filterDepartment
      = ([SetFilteredTeachers
            (Items (map VRow
                      (List.filter
                         (fun row => strict_eq (prop row "department_c")
                                       (JStr filterDepartment))
                         rows)))],
         Return tt)).
Proof.
  split; [reflexivity|].
  intros Hdepartment. apply String.eqb_neq in Hdepartment.
  unfold Teachers.filterTeachers. rewrite Hdepartment.
  cbn [String.eqb negb mbind Eff_bind mret Eff_ret fst snd app].
  unfold Teachers.filter_listing.
  assert (Hfilter :
    filterM (fun teacher => department_c ← field teacher "department_c";
                            mret (strict_eq department_c (JStr filterDepartment)))
            (map VRow rows)
    = ([], Return (map VRow
                     (List.filter
                        (fun row => strict_eq (prop row "department_c")
                                      (JStr filterDepartment)) rows)))).
  { induction rows as [|row rows IH]; [reflexivity|].
    cbn [map filterM List.filter]. rewrite IH. cbn.
    destruct (strict_eq (prop row "department_c") (JStr filterDepartment));
      reflexivity. }
  rewrite Hfilter. reflexivity.
Qed.

Lemma Teachers_filter_by_department_witness :
  let ada : Obj := list_to_map [("name_c", JStr "Ada"); ("department_c", JStr "Maths")] in
  let bob : Obj := list_to_map [("name_c", JStr "Bob"); ("department_c", JStr "Art")] in
  Teachers.filterTeachers (fun s => s) (Items [VRow ada; VRow bob]) "" "Art"
  = ([SetFilteredTeachers (Items [VRow bob])], Return tt).
Proof.
  intros ada bob.
  destruct (Teachers_filter_by_department (fun s => s) (Items []) [ada; bob] "Art")
    as (_ & H).
  apply H. discriminate.
Defined.

(* ===================================================================== *)
(** ** The Activities page *)
(* ===================================================================== *)

(** Loading the activities never brings up the page's error state: as long
    as the client does not reject with [undefined] or [null],
    [loadActivities] completes, clears the error and never sets one, stores
    what [ActivityService.getAll] returned (the empty list in place of a
    falsy value), and ends by switching the loading state off.  The only
    notifications are the service's own. *)
Theorem Activities_loadActivities_sets_no_error (sdk : option ApperClient)
    (Hsdk : forall client, sdk = Some client -> no_nullish_rejection client) :
  let run := Activities.loadActivities sdk in
  run.2 = Return tt
  /\ ui_notifications run.1 = notifications (trace (ActivityService.getAll sdk))
  /\ exists data,
      completion (ActivityService.getAll sdk) = Return data
      /\ setters run.1
         = [SetLoading true; SetError None;
            SetActivities (if truthy_value data then data else VRows []);
            SetLoading false].
Proof.
  intros run. subst run. unfold Activities.loadActivities.
  destruct (ActivityService_returns sdk JUndefined ∅ Hsdk) as ((data & Hdata) & _).
  destruct (ActivityService.getAll sdk) as [tr c]. cbn in Hdata. subst c.
  cbn. ui_simpl. split; [reflexivity|]. split; [reflexivity|].
  exists data. split; reflexivity.
Qed.

Lemma Activities_loadActivities_sets_no_error_witness :
  let run := Activities.loadActivities (Some (rejecting (ErrorObj "Network Error"))) in
  run.2 = Return tt
  /\ ui_notifications run.1
     = notifications (trace (ActivityService.getAll
                               (Some (rejecting (ErrorObj "Network Error")))))
  /\ exists data,
      completion (ActivityService.getAll (Some (rejecting (ErrorObj "Network Error"))))
      = Return data
      /\ setters run.1
         = [SetLoading true; SetError None;
            SetActivities (if truthy_value data then data else VRows []);
            SetLoading false].
Proof.
  apply (Activities_loadActivities_sets_no_error
           (Some (rejecting (ErrorObj "Network Error")))).
  intros client Hclient req error Hreply.
  injection Hclient as <-. injection Hreply as <-. reflexivity.
Defined.

Lemma message_or_silent (error : Thrown) (fallback : string) :
  trace (message_or error fallback) = [].
Proof. destruct error as [m| |v]; [| |destruct v]; reflexivity. Qed.

Lemma loadActivities_calls (client : ApperClient) :
  ui_calls (Activities.loadActivities (Some client)).1
  = calls (trace (ActivityService.getAll (Some client))).
Proof.
  unfold Activities.loadActivities.
  destruct (ActivityService.getAll (Some client)) as [tr [data|e]]; cbn.
  - ui_simpl. reflexivity.
  - pose proof (message_or_silent e "Failed to load activities") as Hsilent.
    destruct (message_or e "Failed to load activities") as [tr' [m|e']];
      cbn in Hsilent; subst tr'; cbn; ui_simpl; reflexivity.
Qed.

Lemma ActivityService_delete_value (client : ApperClient) (response : Envelope.t)
    (results : list RecordResult.t) (id : JsVal) :
  (forall req, client req = Resolve (Val response)) ->
  Envelope.success response = true ->
  Envelope.results response = Val results ->
  completion (ActivityService.delete (Some client) id)
  = Return (VBool (if (0 <? length (rejected results))%nat then false
                   else (0 <? length (succeeded results))%nat)).
Proof.
  intros Hreplies Hsuccess Hresults.
  unfold ActivityService.delete. run_with Hreplies.
  rewrite Hsuccess, Hresults. eval_run.
  destruct (0 <? length (rejected results))%nat.
  - rewrite forEach_record_message. reflexivity.
  - destruct (0 <? length (succeeded results))%nat; reflexivity.
Qed.

(** Deleting an activity from the page.  Until the user confirms, nothing
    is sent.  Once confirmed, one delete request is sent, and the list is
    fetched again exactly when [ActivityService.delete] returned [true]:
    that is, on a successful envelope, exactly when the transport returned
    results and rejected no record. *)
Theorem Activities_handleDeleteActivity_reloads (client : ApperClient)
    (confirmed : bool) (id : JsVal) :
  let run := Activities.handleDeleteActivity (Some client) confirmed id in
  let reload :=
    fetchRecords "activity_c" {|
      Params.fields := ["Name"; "Tags"; "subject_c"; "description_c";
                        "status_c"; "priority_c"; "due_date_c";
                        "CreatedOn"; "ModifiedOn"];
      Params.orderBy := Some [{| Params.fieldName := "ModifiedOn";
                                 Params.sorttype := DESC |}];
      Params.pagingInfo := Some {| Params.limit := 100; Params.offset := 0 |} |} in
  (confirmed = false ->
   run = ([Confirm "Are you sure you want to delete this activity?"], Return tt))
  /\ (confirmed = true ->
      match completion (ActivityService.delete (Some client) id) with
      | Return success =>
          run.2 = Return tt
          /\ ui_calls run.1
             = deleteRecord "activity_c" [parseInt id]
               :: (if truthy_value success then [reload] else [])
      | Throw e =>
          run.2 = Throw e /\ ui_calls run.1 = [deleteRecord "activity_c" [parseInt id]]
      end)
  /\ (forall response results,
        confirmed = true ->
        (forall req, client req = Resolve (Val response)) ->
        Envelope.success response = true ->
        Envelope.results response = Val results ->
        reload ∈ ui_calls run.1 <-> results <> [] /\ rejected results = []).
Proof.
  intros run reload.
  assert (Hconfirmed : confirmed = true ->
      match completion (ActivityService.delete (Some client) id) with
      | Return success =>
          run.2 = Return tt
          /\ ui_calls run.1
             = deleteRecord "activity_c" [parseInt id]
               :: (if truthy_value success then [reload] else [])
      | Throw e =>
          run.2 = Throw e /\ ui_calls run.1 = [deleteRecord "activity_c" [parseInt id]]
      end).
  { intros ->. subst run. unfold Activities.handleDeleteActivity.
    pose proof (ActivityService_delete_sends client id) as Hsent.
    pose proof (loadActivities_calls client) as Hload.
    rewrite ActivityService_getAll_sends in Hload. fold reload in Hload.
    unfold ui_calls in Hload.
    remember (Activities.loadActivities (Some client)) as load eqn:Hl. clear Hl.
    destruct (ActivityService.delete (Some client) id) as [tr [success|e]];
      cbn in Hsent |- *.
    - destruct (truthy_value success); cbn; ui_simpl; rewrite Hsent, ?Hload;
        split; reflexivity.
    - ui_simpl. rewrite Hsent. split; reflexivity. }
  split; [intros ->; reflexivity|]. split; [exact Hconfirmed|].
  intros response results Hc Hreplies Hsuccess Hresults.
  specialize (Hconfirmed Hc).
  rewrite (ActivityService_delete_value client response results id
             Hreplies Hsuccess Hresults) in Hconfirmed.
  destruct Hconfirmed as [_ Hcalls]. rewrite Hcalls. cbn [truthy_value].
  rewrite <- ActivityService_delete_true_iff.
  destruct (if (0 <? length (rejected results))%nat then false
            else (0 <? length (succeeded results))%nat).
  - split; [reflexivity|]. intros _. right. left.
  - split; [|discriminate]. intros Hin.
    apply elem_of_cons in Hin as [Hin | Hin]; [discriminate Hin|].
    apply elem_of_nil in Hin. contradiction.
Qed.

Lemma Activities_handleDeleteActivity_reloads_witness :
  let response := envelope true None VUndefined (Val [refused (Some "In use") None]) in
  let run := Activities.handleDeleteActivity (Some (answering response)) true (JNum 7) in
  run.2 = Return tt /\ ui_calls run.1 = [deleteRecord "activity_c" [JNum 7]].
Proof.
  intros response run.
  destruct (Activities_handleDeleteActivity_reloads (answering response) true (JNum 7))
    as (_ & H & _).
  apply (H eq_refl).
Defined.


(* ===================================================================== *)
(** ** The activity form *)
(* ===================================================================== *)

Lemma callbacks_app (a b : list UiEvent) :
  callbacks (a ++ b) = callbacks a ++ callbacks b.
Proof. apply List.filter_app. Qed.

Lemma callbacks_lift (tr : list Event) : callbacks (map Ev tr) = [].
Proof. induction tr as [|e tr IH]; [reflexivity|]. exact IH. Qed.

(** What [validateForm] finds, for a form whose name and subject are
    strings: an error under each blank field's name and under no other. *)
Lemma validateForm_run (formData : Obj) (name subject : string) :
  prop formData "Name" = JStr name ->
  prop formData "subject_c" = JStr subject ->
  exists errors,
    ActivityModal.validateForm formData
    = ([SetErrors errors], Return (negb (blank_field formData name subject)))
    /\ errors !! "submit" = None
    /\ (is_Some (errors !! "Name") <-> trim name = "")
    /\ (is_Some (errors !! "subject_c") <-> trim subject = "")
    /\ (is_Some (errors !! "status_c") <-> truthy (prop formData "status_c") = false)
    /\ (is_Some (errors !! "priority_c")
        <-> truthy (prop formData "priority_c") = false)
    /\ (is_Some (errors !! "due_date_c")
        <-> truthy (prop formData "due_date_c") = false).
Proof.
  intros HName Hsubject.
  unfold ActivityModal.validateForm, blank_field. rewrite HName, Hsubject.
  cbn [ActivityModal.trim_of lift trace completion mret Eff_ret mbind Ui_bind
       fst snd map app].
  destruct (String.eqb_spec (trim name) "") as [Hn | Hn];
    destruct (String.eqb_spec (trim subject) "") as [Hs | Hs];
    destruct (truthy (prop formData "status_c"));
    destruct (truthy (prop formData "priority_c"));
    destruct (truthy (prop formData "due_date_c")).
  all: eexists; split; [reflexivity|].
  all: split; [reflexivity|].
  all: repeat split;
       first [ solve [intros _; assumption]
             | solve [intros _; reflexivity]
             | solve [intros [x Hx]; vm_compute in Hx; discriminate Hx]
             | solve [intros Hx; contradiction]
             | solve [intros Hx; discriminate Hx]
             | solve [intros _; vm_compute; eauto] ].
Qed.

(** A form with a required field left blank (after trimming, for the name
    and the subject) is not submitted: [handleSubmit] stores the errors,
    one under each blank field's name, and does nothing else: no request,
    no call back, no change of the saving state. *)
Theorem ActivityModal_requires_fields (sdk : option ApperClient) (formData : Obj)
    (activity : Value) (name subject : string)
    (HName : prop formData "Name" = JStr name)
    (Hsubject : prop formData "subject_c" = JStr subject)
    (Hblank : blank_field formData name subject = true) :
  exists errors,
    ActivityModal.handleSubmit sdk formData activity
    = ([PreventDefault; SetErrors errors], Return tt)
    /\ (is_Some (errors !! "Name") <-> trim name = "")
    /\ (is_Some (errors !! "subject_c") <-> trim subject = "")
    /\ (is_Some (errors !! "status_c") <-> truthy (prop formData "status_c") = false)
    /\ (is_Some (errors !! "priority_c")
        <-> truthy (prop formData "priority_c") = false)
    /\ (is_Some (errors !! "due_date_c")
        <-> truthy (prop formData "due_date_c") = false).
Proof.
  destruct (validateForm_run formData name subject HName Hsubject)
    as (errors & Hrun & _ & Hfields).
  exists errors. split; [|exact Hfields].
  unfold ActivityModal.handleSubmit. rewrite Hrun, Hblank. reflexivity.
Qed.

Lemma ActivityModal_requires_fields_witness :
  let formData : Obj :=
    list_to_map [("Name", JStr "  "); ("subject_c", JStr "English");
                 ("status_c", JStr "Not Started"); ("priority_c", JStr "Normal");
                 ("due_date_c", JStr "2024-06-01"); ("Tags", JStr "")] in
  exists errors,
    ActivityModal.handleSubmit None formData VNull
    = ([PreventDefault; SetErrors errors], Return tt)
    /\ (is_Some (errors !! "Name") <-> trim "  " = "")
    /\ (is_Some (errors !! "subject_c") <-> trim "English" = "")
    /\ (is_Some (errors !! "status_c") <-> truthy (prop formData "status_c") = false)
    /\ (is_Some (errors !! "priority_c")
        <-> truthy (prop formData "priority_c") = false)
    /\ (is_Some (errors !! "due_date_c")
        <-> truthy (prop formData "due_date_c") = false).
Proof.
  intros formData.
  apply (ActivityModal_requires_fields None formData VNull "  " "English");
    reflexivity.
Defined.

Lemma js_or_trimmed (s : string) : js_or (JStr s) (JStr "") = JStr s.
Proof.
  unfold js_or. cbn. destruct (String.eqb_spec s "") as [-> | _]; reflexivity.
Qed.

(** A filled-in form (its text fields being strings) is submitted trimmed:
    the one request carries the name, subject, description and tags without
    the white space around them, the name and subject not empty, and, when
    an activity is edited, its [Id] through [parseInt].  The parent is
    called back exactly when the service returned a truthy value, and the
    saving state always ends switched off. *)
Theorem ActivityModal_submits_trimmed (client : ApperClient) (formData : Obj)
    (activity : Value) (name subject description tags : string)
    (HName : prop formData "Name" = JStr name)
    (Hsubject : prop formData "subject_c" = JStr subject)
    (Hdescription : prop formData "description_c" = JStr description)
    (HTags : prop formData "Tags" = JStr tags)
    (Hfilled : blank_field formData name subject = false) :
  let run := ActivityModal.handleSubmit (Some client) formData activity in
  let activityData : Obj :=
    list_to_map [("Name", JStr (trim name)); ("subject_c", JStr (trim subject));
                 ("description_c", JStr (trim description));
                 ("status_c", prop formData "status_c");
                 ("priority_c", prop formData "priority_c");
                 ("due_date_c", prop formData "due_date_c");
                 ("Tags", JStr (trim tags))] in
  let sent (record : Obj) :=
    record !! "Name" = Some (JStr (trim name))
    /\ record !! "subject_c" = Some (JStr (trim subject))
    /\ record !! "description_c" = Some (JStr (trim description))
    /\ record !! "Tags" = Some (JStr (trim tags)) in
  let called_back (service : Eff Value) :=
    callbacks run.1
    = match completion service with
      | Return result => if truthy_value result then [OnSave] else []
      | Throw _ => []
      end in
  (trim name <> "" /\ trim subject <> "")
  /\ last (setters run.1) = Some (SetSaving false)
  /\ (truthy_value activity = false ->
      (exists record,
          ui_calls run.1 = [createRecord "activity_c" [record]] /\ sent record)
      /\ called_back (ActivityService.create (Some client) activityData))
  /\ (forall row, activity = VRow row ->
      (exists record,
          ui_calls run.1 = [updateRecord "activity_c" [record]]
          /\ record !! "Id" = Some (parseInt (prop row "Id"))
          /\ sent record)
      /\ called_back (ActivityService.update (Some client) (prop row "Id")
                        activityData)).
Proof.
  intros run activityData sent called_back.
  destruct (validateForm_run formData name subject HName Hsubject)
    as (errors & Hrun & _).
  assert (Hnames : trim name <> "" /\ trim subject <> "").
  { unfold blank_field in Hfilled.
    repeat (apply orb_false_iff in Hfilled as [Hfilled ?]).
    split; apply String.eqb_neq; assumption. }
  assert (Hsent : forall record : Obj,
             record = list_to_map [
               ("Name", prop activityData "Name");
               ("subject_c", prop activityData "subject_c");
               ("description_c", prop activityData "description_c");
               ("status_c", prop activityData "status_c");
               ("priority_c", prop activityData "priority_c");
               ("due_date_c", prop activityData "due_date_c");
               ("Tags", js_or (prop activityData "Tags") (JStr ""))] ->
             sent record).
  { intros record ->. subst sent activityData. cbn beta.
    repeat split; try reflexivity.
    change (Some (js_or (JStr (trim tags)) (JStr "")) = Some (JStr (trim tags))).
    rewrite js_or_trimmed. reflexivity. }
  subst run called_back. cbn beta.
  unfold ActivityModal.handleSubmit.
  rewrite Hrun, Hfilled, HName, Hsubject, Hdescription, HTags.
  cbn -[ActivityService.create ActivityService.update trim list_to_map prop js_or
        parseInt setters callbacks ui_calls].
  fold activityData.
  split; [exact Hnames|].
  split; [|split].
  - destruct activity as [| |b|row|rows]; cbn -[ActivityService.create
      ActivityService.update trim list_to_map prop js_or parseInt setters
      callbacks ui_calls].
    3: destruct b.
    all: match goal with
         | |- context [ActivityService.create ?a ?b] =>
             destruct (ActivityService.create a b) as [tr [result|e]]
         | |- context [ActivityService.update ?a ?b ?c] =>
             destruct (ActivityService.update a b c) as [tr [result|e]]
         end.
    all: cbn; try destruct (truthy_value result); cbn.
    all: try (pose proof (message_or_silent e "Failed to save activity") as Hsilent;
              destruct (message_or e "Failed to save activity") as [tr' [m|e']];
              cbn in Hsilent; subst tr'; cbn).
    all: ui_simpl; rewrite ?last_snoc; reflexivity.
  - intros Hcreating. rewrite Hcreating.
    pose proof (ActivityService_create_sends client activityData) as Hcalls.
    destruct (ActivityService.create (Some client) activityData) as [tr [result|e]];
      cbn in Hcalls |- *.
    + destruct (truthy_value result); cbn; unfold callbacks; ui_simpl;
        rewrite ?List.filter_app; fold (callbacks (map Ev tr));
        rewrite callbacks_lift, Hcalls; (split; [|reflexivity]);
        eexists; (split; [reflexivity|]); apply Hsent; reflexivity.
    + pose proof (message_or_silent e "Failed to save activity") as Hsilent.
      destruct (message_or e "Failed to save activity") as [tr' [m|e']];
        cbn in Hsilent; subst tr'; cbn; unfold callbacks; ui_simpl;
        rewrite ?List.filter_app; fold (callbacks (map Ev tr));
        rewrite callbacks_lift, Hcalls; (split; [|reflexivity]);
        eexists; (split; [reflexivity|]); apply Hsent; reflexivity.
  - intros row ->.
    cbn -[ActivityService.create ActivityService.update trim list_to_map prop js_or
          parseInt setters callbacks ui_calls].
    pose proof (ActivityService_update_sends client (prop row "Id") activityData)
      as Hcalls.
    assert (Hrecord : forall record : Obj,
               record = list_to_map [
                 ("Id", parseInt (prop row "Id"));
                 ("Name", prop activityData "Name");
                 ("subject_c", prop activityData "subject_c");
                 ("description_c", prop activityData "description_c");
                 ("status_c", prop activityData "status_c");
                 ("priority_c", prop activityData "priority_c");
                 ("due_date_c", prop activityData "due_date_c");
                 ("Tags", js_or (prop activityData "Tags") (JStr ""))] ->
               record !! "Id" = Some (parseInt (prop row "Id")) /\ sent record).
    { intros record ->. split; [reflexivity|]. subst sent activityData. cbn beta.
      repeat split; try reflexivity.
      change (Some (js_or (JStr (trim tags)) (JStr "")) = Some (JStr (trim tags))).
      rewrite js_or_trimmed. reflexivity. }
    destruct (ActivityService.update (Some client) (prop row "Id") activityData)
      as [tr [result|e]]; cbn in Hcalls |- *.
    + destruct (truthy_value result); cbn; unfold callbacks; ui_simpl;
        rewrite ?List.filter_app; fold (callbacks (map Ev tr));
        rewrite callbacks_lift, Hcalls; (split; [|reflexivity]);
        eexists; (split; [reflexivity|]); apply Hrecord; reflexivity.
    + pose proof (message_or_silent e "Failed to save activity") as Hsilent.
      destruct (message_or e "Failed to save activity") as [tr' [m|e']];
        cbn in Hsilent; subst tr'; cbn; unfold callbacks; ui_simpl;
        rewrite ?List.filter_app; fold (callbacks (map Ev tr));
        rewrite callbacks_lift, Hcalls; (split; [|reflexivity]);
        eexists; (split; [reflexivity|]); apply Hrecord; reflexivity.
Qed.

Lemma ActivityModal_submits_trimmed_witness :
  let formData : Obj :=
    list_to_map [("Name", JStr " Essay "); ("subject_c", JStr "English ");
                 ("description_c", JStr ""); ("status_c", JStr "Not Started");
                 ("priority_c", JStr "Normal"); ("due_date_c", JStr "2024-06-01");
                 ("Tags", JStr " draft ")] in
  let row : Obj := {[ "Id" := JNum 42 ]} in
  let client := answering (envelope true None VUndefined (Val [accepted (VRow row)])) in
  let run := ActivityModal.handleSubmit (Some client) formData VNull in
  (trim " Essay " <> "" /\ trim "English " <> "")
  /\ last (setters run.1) = Some (SetSaving false).
Proof.
  intros formData row client run.
  destruct (ActivityModal_submits_trimmed client formData VNull
              " Essay " "English " "" " draft ") as (H1 & H2 & _);
    try reflexivity.
  split; [exact H1 | exact H2].
Defined.
